(** * Allele compatibility toolkit: a shallow embedding of the core

    The development follows [src/src/types.rs], [src/src/analysis.rs],
    [src/src/parsers/tsv_parser.rs] and the relevant part of [src/src/main.rs].
    Rust's [f32] and [f64] are the IEEE binary32 and binary64 formats of the
    Standard Library's executable float specification ([SpecFloat]), with
    round-to-nearest-even; [u64] is [Z] with its wrap-around written out. *)

From Stdlib Require Import ZArith List String Ascii Bool Lia.
From Stdlib Require Import Floats.SpecFloat.
Import ListNotations.
Open Scope string_scope.

(** ** Machine numbers *)

Definition f32 := spec_float.
Definition f64 := spec_float.

(** [n as f32] (also [usize as f32]): rounded to nearest. *)
Definition f32_of_Z (z : Z) : f32 := binary_normalize 24 128 z 0 false.
Definition f32_of_nat (n : nat) : f32 := f32_of_Z (Z.of_nat n).
Definition f32_add : f32 -> f32 -> f32 := SFadd 24 128.
Definition f32_mul : f32 -> f32 -> f32 := SFmul 24 128.
Definition f32_div : f32 -> f32 -> f32 := SFdiv 24 128.
(** [a > b] on floats. *)
Definition f32_gt (a b : f32) : bool := SFltb b a.
(** A decimal literal [n / d] is the float nearest to the rational [n/d];
    IEEE division of two exactly representable integers yields exactly it. *)
Definition f32_lit (n d : Z) : f32 := f32_div (f32_of_Z n) (f32_of_Z d).

Definition f64_of_Z (z : Z) : f64 := binary_normalize 53 1024 z 0 false.
Definition f64_of_nat (n : nat) : f64 := f64_of_Z (Z.of_nat n).
Definition f64_add : f64 -> f64 -> f64 := SFadd 53 1024.
Definition f64_div : f64 -> f64 -> f64 := SFdiv 53 1024.
Definition f64_gt (a b : f64) : bool := SFltb b a.
Definition f64_lit (n d : Z) : f64 := f64_div (f64_of_Z n) (f64_of_Z d).

(** [f64::min] and [f64::max]: a NaN operand yields the other one. *)
Definition f64_min (a b : f64) : f64 :=
  match a, b with
  | S754_nan, _ => b
  | _, S754_nan => a
  | _, _ => if SFltb b a then b else a
  end.
Definition f64_max (a b : f64) : f64 :=
  match a, b with
  | S754_nan, _ => b
  | _, S754_nan => a
  | _, _ => if SFltb a b then b else a
  end.

(** [x as f32] for an [f64] [x]: rounded to nearest. *)
Definition f32_of_f64 (x : f64) : f32 :=
  match x with
  | S754_finite s m e => binary_round 24 128 s m e
  | S754_zero s => S754_zero s
  | S754_infinity s => S754_infinity s
  | S754_nan => S754_nan
  end.

Definition u64_modulus : Z := 2 ^ 64.
Definition u64_add (a b : Z) : Z := (a + b) mod u64_modulus.
Definition u64_sub (a b : Z) : Z := (a - b) mod u64_modulus.

(** ** types.rs: genotypes *)

Inductive Genotype :=
| HomozygousReference
| HomozygousAlternate
| Heterozygous
| HeterozygousAltAlt
| NoCall
| Partial.

Definition is_sep (c : ascii) : bool :=
  ((c =? "/")%char || (c =? "|")%char)%bool.

(** [s.contains('/') || s.contains('|')] *)
Fixpoint contains_sep (s : string) : bool :=
  match s with
  | EmptyString => false
  | String c r => (is_sep c || contains_sep r)%bool
  end.

(** [s.split(&['/', '|'][..])]: the pieces between separators, empty ones
    included, so that a string with k separators has k+1 pieces. *)
Fixpoint split_seps (s : string) : list string :=
  match s with
  | EmptyString => [EmptyString]
  | String c r =>
      let parts := split_seps r in
      if is_sep c then EmptyString :: parts
      else match parts with
           | p :: ps => String c p :: ps
           | [] => [String c EmptyString]
           end
  end.

Definition str_in (s : string) (l : list string) : bool :=
  existsb (String.eqb s) l.

(** [Genotype::from_string] *)
Definition from_string (s : string) : Genotype :=
  if str_in s ["0/0"; "0|0"; "AA"] then HomozygousReference
  else if str_in s ["1/1"; "1|1"; "BB"] then HomozygousAlternate
  else if str_in s ["0/1"; "0|1"; "1/0"; "1|0"; "AB"; "BA"] then Heterozygous
  else if str_in s ["./."; ".|."; ""] then NoCall
  else if contains_sep s then
    match split_seps s with
    | [p0; p1] =>
        if String.eqb p0 p1 then
          (if String.eqb p0 "0" then HomozygousReference else HomozygousAlternate)
        else if (String.eqb p0 "0" || String.eqb p1 "0")%bool then Heterozygous
        else HeterozygousAltAlt
    | _ => NoCall
    end
  else Partial.

Definition is_homozygous (g : Genotype) : bool :=
  match g with
  | HomozygousReference | HomozygousAlternate => true
  | _ => false
  end.

(** [Genotype::is_compatible], arm by arm. *)
Definition is_compatible (a b : Genotype) : bool :=
  match a, b with
  | NoCall, _ | _, NoCall => true
  | HomozygousReference, HomozygousReference => true
  | HomozygousReference, Heterozygous => true
  | Heterozygous, HomozygousReference => true
  | HomozygousAlternate, HomozygousAlternate => true
  | HomozygousAlternate, Heterozygous => true
  | Heterozygous, HomozygousAlternate => true
  | Heterozygous, Heterozygous => true
  | _, _ => true
  end.

(** The classification rules of the spec (section 3), read literally.
    [None] marks the tokens the rules leave open: a separated token whose
    split does not give two pieces, and two equal pieces "0". *)
Definition genotype_rules (s : string) : option Genotype :=
  if str_in s ["0/0"; "0|0"; "AA"] then Some HomozygousReference
  else if str_in s ["1/1"; "1|1"; "BB"] then Some HomozygousAlternate
  else if str_in s ["0/1"; "0|1"; "1/0"; "1|0"; "AB"; "BA"] then Some Heterozygous
  else if str_in s [""; "./."; ".|."] then Some NoCall
  else if contains_sep s then
    match split_seps s with
    | [a1; a2] =>
        let z1 := String.eqb a1 "0" in
        let z2 := String.eqb a2 "0" in
        if (String.eqb a1 a2 && negb z1)%bool then Some HomozygousAlternate
        else if xorb z1 z2 then Some Heterozygous
        else if (negb (String.eqb a1 a2) && negb z1 && negb z2)%bool
        then Some HeterozygousAltAlt
        else None
    | _ => None
    end
  else Some Partial.

(** [anyhow::Result]: the error is its message. *)
Inductive result (A : Type) : Type :=
| Ok (a : A)
| Err (e : string).
Arguments Ok {A} a.
Arguments Err {A} e.

Definition bind {A B : Type} (r : result A) (f : A -> result B) : result B :=
  match r with
  | Ok a => f a
  | Err e => Err e
  end.
Notation "x <- r ;; k" := (bind r (fun x => k))
  (at level 61, r at next level, right associativity).

(** ** types.rs: variants and coordinates *)

Record Coordinate := mkCoordinate { chromosome : string; position : Z }.

Definition coord_eqb (a b : Coordinate) : bool :=
  (String.eqb (chromosome a) (chromosome b) && Z.eqb (position a) (position b))%bool.

Record Variant := mkVariant {
  v_chromosome : string;
  v_position : Z;
  rsid : option string;
  reference_allele : string;
  alternate_alleles : list string;
  genotype : Genotype;
  quality : option f32;
  vfilter : option string; (* the field [filter] *)
  info : list (string * string)
}.

Inductive HLAResolution := TwoDigit | FourDigit | SixDigit | EightDigit | UnknownResolution.

Record HLAAllele := mkHLAAllele {
  gene : string;
  allele : string;
  resolution : HLAResolution;
  confidence : f32
}.

(** ** parsers/mod.rs: the sample container *)

(** Modelled from the spec: [ParsedGeneticData], whose source
    ([src/src/parsers/mod.rs]) is not part of the repository snapshot.
    Section 3: a sample identifier, a source path, a genome build, the
    variant map keyed by Coordinate and the HLA alleles (the quality metrics,
    computed once after parsing, are read by no analyzer and left out).
    Section 4.4 walks the variant map "in their stored (insertion) order", so
    the map is an association list in insertion order. *)
Record ParsedGeneticData := mkParsedGeneticData {
  sample_id : string;
  source_file : string;
  genome_build : string;
  variants : list (Coordinate * Variant);
  hla_alleles : list HLAAllele
}.

(** Modelled from the spec: [ParsedGeneticData::get_variant], the lookup of
    the variant stored at a coordinate. *)
Definition get_variant (d : ParsedGeneticData) (chr : string) (pos : Z)
  : option Variant :=
  option_map snd
    (find (fun cv => coord_eqb (fst cv) (mkCoordinate chr pos)) (variants d)).

(** Modelled from the spec: the last-write-wins insertion of a variant under
    its coordinate (section 3): a record for a stored coordinate overwrites
    it in place, a new coordinate is appended. *)
Fixpoint insert_variant (c : Coordinate) (v : Variant)
    (l : list (Coordinate * Variant)) : list (Coordinate * Variant) :=
  match l with
  | [] => [(c, v)]
  | (c', v') :: r =>
      if coord_eqb c' c then (c', v) :: r else (c', v') :: insert_variant c v r
  end.

(** Modelled from the spec: [ParsedGeneticData::add_variant]. *)
Definition add_variant (v : Variant) (d : ParsedGeneticData) : ParsedGeneticData :=
  {| sample_id := sample_id d;
     source_file := source_file d;
     genome_build := genome_build d;
     variants := insert_variant (mkCoordinate (v_chromosome v) (v_position v)) v
                   (variants d);
     hla_alleles := hla_alleles d |}.

(** ** analysis.rs: the parallel fan-out *)

(** [comparisons.par_iter().map(f).collect::<Result<Vec<_>>>()]: rayon's
    indexed collect keeps the input order; the model propagates the first
    error. *)
Fixpoint par_map_collect {A B : Type} (f : A -> result B) (l : list A)
  : result (list B) :=
  match l with
  | [] => Ok []
  | x :: r => y <- f x ;; ys <- par_map_collect f r ;; Ok (y :: ys)
  end.

(** ** analysis.rs: AlleleComparator *)

Record ClinicalAnnotation := mkClinicalAnnotation {
  drug : string;
  implication : string;
  recommendation : string;
  evidence_level : string
}.

Record PharmacogenomicResult := mkPharmacogenomicResult {
  pg_sample_id : string;
  pg_gene : string;
  diplotype : string;
  phenotype : string;
  activity_score : f32;
  clinical_annotations : list ClinicalAnnotation
}.

Section Formatting.

(** Rust's [format!("{:.N}", x)] of an [f32]: the decimal rendering is not
    modelled and stays a parameter of the analyzers that print floats. *)
Variable fmt_f32 : nat -> f32 -> string.

(** [AlleleComparator::count_shared_variants] *)
Definition count_shared_variants (patient sample : ParsedGeneticData) : nat :=
  List.length
    (List.filter
       (fun cv : Coordinate * Variant =>
          let (coord, patient_variant) := cv in
          match get_variant sample (chromosome coord) (position coord) with
          | Some sample_variant =>
              is_compatible (genotype patient_variant) (genotype sample_variant)
          | None => false
          end)
       (variants patient)).

(** [let similarity = shared_variants as f32 / total_variants as f32] *)
Definition similarity (patient sample : ParsedGeneticData) : f32 :=
  f32_div (f32_of_nat (count_shared_variants patient sample))
          (f32_of_nat (Nat.max (List.length (variants patient)) 1)).

(** [AlleleComparator::compare_sample] *)
Definition compare_sample (patient sample : ParsedGeneticData)
  : result PharmacogenomicResult :=
  let sim := similarity patient sample in
  Ok {| pg_sample_id := sample_id sample;
        pg_gene := "MULTI";
        diplotype := fmt_f32 2 (f32_mul sim (f32_of_Z 100)) ++ "%";
        phenotype :=
          if f32_gt sim (f32_lit 9 10) then "Extensive Metabolizer"
          else if f32_gt sim (f32_lit 7 10) then "Intermediate Metabolizer"
          else "Poor Metabolizer";
        activity_score := sim;
        clinical_annotations :=
          [ {| drug := "Multiple";
               implication := "Genetic similarity: "
                              ++ fmt_f32 1 (f32_mul sim (f32_of_Z 100)) ++ "%";
               recommendation :=
                 if f32_gt sim (f32_lit 8 10)
                 then "Standard dosing expected to be effective"
                 else "Consider alternative medications or dose adjustments";
               evidence_level := "Moderate" |} ] |}.

(** [AlleleComparator::compare] *)
Definition compare (patient : ParsedGeneticData) (comparisons : list ParsedGeneticData)
  : result (list PharmacogenomicResult) :=
  par_map_collect (compare_sample patient) comparisons.

End Formatting.

(** ** analysis.rs: OrganCompatibilityChecker *)

Inductive OrganType :=
| Kidney | Liver | Heart | Lung | Pancreas | BoneMarrow | Cornea | Skin.

Record HLATypingResult := mkHLATypingResult {
  a_matches : nat;
  b_matches : nat;
  dr_matches : nat;
  dq_matches : nat;
  dp_matches : nat;
  total_matches : nat;
  mismatch_count : nat
}.

Inductive CrossmatchResult :=
| Compatible | Incompatible | RequiresFurtherTesting | UnknownCrossmatch.

Record OrganCompatibilityResult := mkOrganCompatibilityResult {
  oc_sample_id : string;
  organ : string;
  compatibility_score : f32;
  hla_matches : HLATypingResult;
  blood_type_compatible : bool;
  crossmatch_result : CrossmatchResult;
  oc_recommendations : list string
}.

(** [OrganCompatibilityChecker { target_organ }] *)
Record OrganCompatibilityChecker := mkOrganCompatibilityChecker {
  target_organ : option OrganType
}.

(** [calculate_hla_matching]: the fixed tally of the source. *)
Definition calculate_hla_matching (_patient _sample : ParsedGeneticData)
  : HLATypingResult :=
  {| a_matches := 2; b_matches := 2; dr_matches := 2; dq_matches := 1;
     dp_matches := 1; total_matches := 8; mismatch_count := 2 |}.

(** [check_blood_type_compatibility] *)
Definition check_blood_type_compatibility (_patient _sample : ParsedGeneticData)
  : bool := true.

(** [calculate_compatibility_score] *)
Definition calculate_compatibility_score (hla : HLATypingResult)
    (blood_type_compatible : bool) : f32 :=
  let hla_score := f32_div (f32_of_nat (total_matches hla)) (f32_of_Z 12) in
  let blood_score := if blood_type_compatible then f32_of_Z 1 else f32_of_Z 0 in
  f32_add (f32_mul (f32_lit 8 10) hla_score) (f32_mul (f32_lit 2 10) blood_score).

(** The crossmatch branch of [check_sample]. *)
Definition crossmatch_of_score (compatibility_score : f32) : CrossmatchResult :=
  if f32_gt compatibility_score (f32_lit 8 10) then Compatible
  else if f32_gt compatibility_score (f32_lit 6 10) then RequiresFurtherTesting
  else Incompatible.

(** [generate_recommendations] *)
Definition generate_recommendations (compatibility_score : f32)
    (hla : HLATypingResult) : list string :=
  ([ if f32_gt compatibility_score (f32_lit 8 10)
    then "High compatibility - suitable candidate for transplantation"
    else if f32_gt compatibility_score (f32_lit 6 10)
    then "Moderate compatibility - further testing recommended"
    else "Low compatibility - not recommended for transplantation" ]
  ++ (if Nat.ltb 3 (mismatch_count hla)
      then ["High number of HLA mismatches may increase rejection risk"] else [])
  ++ ["Consult with transplant team for clinical evaluation"])%list.

Definition organ_name (o : option OrganType) : string :=
  match o with
  | Some Kidney => "Kidney"
  | Some Liver => "Liver"
  | Some Heart => "Heart"
  | Some Lung => "Lung"
  | Some Pancreas => "Pancreas"
  | Some BoneMarrow => "Bone Marrow"
  | Some Cornea => "Cornea"
  | Some Skin => "Skin"
  | None => "Multi-organ"
  end.

(** [OrganCompatibilityChecker::check_sample] *)
Definition check_sample (self : OrganCompatibilityChecker)
    (patient sample : ParsedGeneticData) : result OrganCompatibilityResult :=
  let hla := calculate_hla_matching patient sample in
  let blood := check_blood_type_compatibility patient sample in
  let score := calculate_compatibility_score hla blood in
  Ok {| oc_sample_id := sample_id sample;
        organ := organ_name (target_organ self);
        compatibility_score := score;
        hla_matches := hla;
        blood_type_compatible := blood;
        crossmatch_result := crossmatch_of_score score;
        oc_recommendations := generate_recommendations score hla |}.

(** [OrganCompatibilityChecker::check] *)
Definition check (self : OrganCompatibilityChecker) (patient : ParsedGeneticData)
    (comparisons : list ParsedGeneticData) : result (list OrganCompatibilityResult) :=
  par_map_collect (check_sample self patient) comparisons.

(** ** analysis.rs: DiseaseAnalyzer *)

Module RiskCategory.
Inductive t := High | Moderate | Low | Protective | Unknown.
End RiskCategory.

Module ConfidenceLevel.
Inductive t := Definitive | Likely | Uncertain | Unknown.
End ConfidenceLevel.

Module RiskLevel.
Inductive t := VeryHigh | High | Moderate | Low | VeryLow | Unknown.
End RiskLevel.

Record DiseaseVariant := mkDiseaseVariant {
  disease : string;
  dv_rsid : string;
  dv_chromosome : string;
  dv_position : Z;
  risk_allele : string;
  odds_ratio : option f32;
  risk_category : RiskCategory.t;
  dv_confidence : ConfidenceLevel.t
}.

Record DiseaseRiskResult := mkDiseaseRiskResult {
  dr_sample_id : string;
  dr_disease : string;
  risk_level : RiskLevel.t;
  risk_score : f32;
  variants_found : list DiseaseVariant;
  dr_recommendations : list string
}.

(** The body of the loop of [identify_disease_variants] for one stored
    variant: the entries it pushes. *)
Definition disease_variants_of (cv : Coordinate * Variant) : list DiseaseVariant :=
  let (coord, variant) := cv in
  match rsid variant with
  | Some r =>
      if (String.eqb r "rs429358" || String.eqb r "rs7412")%bool then
        [ {| disease := "Alzheimer's Disease"; dv_rsid := r;
             dv_chromosome := chromosome coord; dv_position := position coord;
             risk_allele := reference_allele variant;
             odds_ratio := Some (f32_lit 25 10);
             risk_category := RiskCategory.High;
             dv_confidence := ConfidenceLevel.Definitive |} ]
      else if String.eqb r "rs6025" then
        [ {| disease := "Thrombophilia"; dv_rsid := r;
             dv_chromosome := chromosome coord; dv_position := position coord;
             risk_allele := reference_allele variant;
             odds_ratio := Some (f32_lit 50 10);
             risk_category := RiskCategory.High;
             dv_confidence := ConfidenceLevel.Definitive |} ]
      else []
  | None => []
  end.

(** [DiseaseAnalyzer::identify_disease_variants]: the loop over the
    patient's variants, pushing in order; the sample is not read. *)
Definition identify_disease_variants (patient _sample : ParsedGeneticData)
  : list DiseaseVariant :=
  flat_map disease_variants_of (variants patient).

Definition category_weight (c : RiskCategory.t) : f32 :=
  match c with
  | RiskCategory.High => f32_of_Z 3
  | RiskCategory.Moderate => f32_of_Z 2
  | RiskCategory.Low => f32_of_Z 1
  | RiskCategory.Protective => f32_of_Z (-1)
  | RiskCategory.Unknown => f32_of_Z 0
  end.

(** [calculate_risk_score] *)
Definition calculate_risk_score (vs : list DiseaseVariant) : f32 :=
  fold_left
    (fun acc v =>
       let odds := match odds_ratio v with Some o => o | None => f32_of_Z 1 end in
       f32_add acc (f32_mul (category_weight (risk_category v)) odds))
    vs (f32_of_Z 0).

(** [determine_risk_level] *)
Definition determine_risk_level (score : f32) : RiskLevel.t :=
  if f32_gt score (f32_of_Z 10) then RiskLevel.VeryHigh
  else if f32_gt score (f32_of_Z 5) then RiskLevel.High
  else if f32_gt score (f32_of_Z 2) then RiskLevel.Moderate
  else if f32_gt score (f32_lit 5 10) then RiskLevel.Low
  else if f32_gt score (f32_of_Z 0) then RiskLevel.VeryLow
  else RiskLevel.VeryLow.

(** [generate_disease_recommendations] *)
Definition generate_disease_recommendations (vs : list DiseaseVariant) : list string :=
  match vs with
  | _ :: _ =>
      [ "Genetic variants associated with increased disease risk detected";
        "Consult with a genetic counselor for personalized risk assessment";
        "Consider lifestyle modifications to mitigate environmental risk factors" ]
  | [] =>
      [ "No high-risk disease variants detected";
        "Continue routine health screenings as recommended by your physician" ]
  end.

(** [DiseaseAnalyzer::analyze_sample] *)
Definition analyze_disease_sample (patient sample : ParsedGeneticData)
  : result DiseaseRiskResult :=
  let dvs := identify_disease_variants patient sample in
  let score := calculate_risk_score dvs in
  Ok {| dr_sample_id := sample_id sample;
        dr_disease := "Cardiovascular Disease";
        risk_level := determine_risk_level score;
        risk_score := score;
        variants_found := dvs;
        dr_recommendations := generate_disease_recommendations dvs |}.

(** [DiseaseAnalyzer::analyze] *)
Definition analyze_disease (patient : ParsedGeneticData)
    (comparisons : list ParsedGeneticData) : result (list DiseaseRiskResult) :=
  par_map_collect (analyze_disease_sample patient) comparisons.

(** ** analysis.rs: HLAAnalyzer *)

Record HLAMatchResult := mkHLAMatchResult {
  hm_sample_id : string;
  hla_a : list HLAAllele;
  hla_b : list HLAAllele;
  hla_c : list HLAAllele;
  hla_drb1 : list HLAAllele;
  hla_dqb1 : list HLAAllele;
  hla_dpb1 : list HLAAllele;
  match_score : f32
}.

(** [groups.entry(allele.gene.clone()).or_default().push(allele)] *)
Fixpoint group_push (a : HLAAllele) (groups : list (string * list HLAAllele))
  : list (string * list HLAAllele) :=
  match groups with
  | [] => [(gene a, [a])]
  | (g, xs) :: r =>
      if String.eqb g (gene a) then (g, (xs ++ [a])%list) :: r else (g, xs) :: group_push a r
  end.

(** The [HashMap<String, Vec<&HLAAllele>>] grouping, kept in order of first
    appearance; the score only sums over it, so the map's iteration order
    does not matter. *)
Definition group_by_gene (l : list HLAAllele) : list (string * list HLAAllele) :=
  fold_left (fun gs a => group_push a gs) l [].

Definition lookup_group (g : string) (groups : list (string * list HLAAllele))
  : option (list HLAAllele) :=
  option_map snd (find (fun e => String.eqb (fst e) g) groups).

(** [HLAAnalyzer::calculate_match_score] *)
Definition calculate_match_score (patient_hla sample_hla : list HLAAllele) : f32 :=
  let sample_groups := group_by_gene sample_hla in
  let '(matches, total) :=
    fold_left
      (fun (acc : nat * nat) (e : string * list HLAAllele) =>
         let '(m, t) := acc in
         let (g, patient_alleles) := e in
         match lookup_group g sample_groups with
         | Some sample_alleles =>
             (m + List.length
                    (List.filter
                       (fun pa => existsb (fun sa => String.eqb (allele pa) (allele sa))
                                          sample_alleles)
                       patient_alleles),
              t + Nat.min (List.length patient_alleles) (List.length sample_alleles))
         | None => (m, t)
         end)
      (group_by_gene patient_hla) (0, 0) in
  if Nat.ltb 0 total then f32_div (f32_of_nat matches) (f32_of_nat total)
  else f32_of_Z 0.

Definition alleles_of_gene (g : string) (l : list HLAAllele) : list HLAAllele :=
  List.filter (fun a => String.eqb (gene a) g) l.

(** [HLAAnalyzer::analyze_sample] *)
Definition analyze_hla_sample (patient sample : ParsedGeneticData)
  : result HLAMatchResult :=
  let sample_hla := hla_alleles sample in
  Ok {| hm_sample_id := sample_id sample;
        hla_a := alleles_of_gene "HLA-A" sample_hla;
        hla_b := alleles_of_gene "HLA-B" sample_hla;
        hla_c := alleles_of_gene "HLA-C" sample_hla;
        hla_drb1 := alleles_of_gene "HLA-DRB1" sample_hla;
        hla_dqb1 := alleles_of_gene "HLA-DQB1" sample_hla;
        hla_dpb1 := alleles_of_gene "HLA-DPB1" sample_hla;
        match_score := calculate_match_score (hla_alleles patient) sample_hla |}.

(** [HLAAnalyzer::analyze] *)
Definition analyze_hla (patient : ParsedGeneticData)
    (comparisons : list ParsedGeneticData) : result (list HLAMatchResult) :=
  par_map_collect (analyze_hla_sample patient) comparisons.

(** ** types.rs and analysis.rs: IBDDetector *)

Record IBDSegment := mkIBDSegment {
  seg_chromosome : string;
  seg_start : Z;
  seg_end : Z;
  length_cm : f64;
  snp_count : nat;
  start_position_bp : Z;
  end_position_bp : Z
}.

Inductive RelationshipPrediction :=
| IdenticalTwin | ParentChild | FullSibling | HalfSibling
| GrandparentGrandchild | AuntUncleNieceNephew | FirstCousin
| FirstCousinOnceRemoved | SecondCousin | SecondCousinOnceRemoved
| ThirdCousin | Distant | Unrelated | UnknownRelationship.

(** [RelationshipPrediction::from_shared_cm] *)
Definition from_shared_cm (cm : f64) : RelationshipPrediction :=
  if f64_gt cm (f64_of_Z 3400) then IdenticalTwin
  else if f64_gt cm (f64_of_Z 3100) then ParentChild
  else if f64_gt cm (f64_of_Z 2200) then FullSibling
  else if f64_gt cm (f64_of_Z 1300) then HalfSibling
  else if f64_gt cm (f64_of_Z 1150) then GrandparentGrandchild
  else if f64_gt cm (f64_of_Z 800) then AuntUncleNieceNephew
  else if f64_gt cm (f64_of_Z 400) then FirstCousin
  else if f64_gt cm (f64_of_Z 200) then FirstCousinOnceRemoved
  else if f64_gt cm (f64_of_Z 100) then SecondCousin
  else if f64_gt cm (f64_of_Z 50) then SecondCousinOnceRemoved
  else if f64_gt cm (f64_of_Z 30) then ThirdCousin
  else if f64_gt cm (f64_of_Z 10) then Distant
  else Unrelated.

Record IBDSegmentResult := mkIBDSegmentResult {
  ibd_sample_id : string;
  total_shared_cm : f64;
  segment_count : nat;
  largest_segment_cm : f64;
  segments : list IBDSegment;
  predicted_relationship : RelationshipPrediction;
  ibd_confidence : f32
}.

(** [IBDDetector { min_cm, min_segment_length }] *)
Record IBDDetector := mkIBDDetector {
  min_cm : f64;
  min_segment_length : nat
}.

(** [IBDDetector::create_segment]: [(end - start) as f64 / 1_000_000.0]. *)
Definition create_segment (chr : string) (start end_ : Z) (count : nat) : IBDSegment :=
  let length_bp := f64_of_Z (u64_sub end_ start) in
  {| seg_chromosome := chr;
     seg_start := start;
     seg_end := end_;
     length_cm := f64_div length_bp (f64_of_Z 1000000);
     snp_count := count;
     start_position_bp := start;
     end_position_bp := end_ |}.

(** The open segment [(chr, start, end, count)]. *)
Definition open_segment : Type := (string * Z * Z * nat)%type.

(** The loop state of [find_ibd_segments]: the closed segments kept so far
    and the open one. *)
Definition ibd_state : Type := (list IBDSegment * option open_segment)%type.

(** [if *count >= self.min_segment_length { segments.push(...) }] *)
Definition close_segment (self : IBDDetector) (segs : list IBDSegment)
    (cur : open_segment) : list IBDSegment :=
  let '(chr, start, end_, count) := cur in
  if Nat.leb (min_segment_length self) count
  then (segs ++ [create_segment chr start end_ count])%list
  else segs.

(** One iteration of the loop of [find_ibd_segments]. *)
Definition ibd_step (self : IBDDetector) (sample : ParsedGeneticData)
    (st : ibd_state) (cv : Coordinate * Variant) : ibd_state :=
  let (coord, patient_variant) := cv in
  let (segs, current) := st in
  match get_variant sample (chromosome coord) (position coord) with
  | Some sample_variant =>
      if is_compatible (genotype patient_variant) (genotype sample_variant) then
        match current with
        | None => (segs, Some (chromosome coord, position coord, position coord, 1%nat))
        | Some (chr, start, end_, count) =>
            if (String.eqb chr (chromosome coord)
                && Z.leb (position coord) (u64_add end_ 1000000))%bool
            then (segs, Some (chr, start, position coord, S count))
            else (close_segment self segs (chr, start, end_, count),
                  Some (chromosome coord, position coord, position coord, 1%nat))
        end
      else st
  | None => st
  end.

(** [IBDDetector::find_ibd_segments]: the loop over the patient's variants
    in stored order, then the last open segment. *)
Definition find_ibd_segments (self : IBDDetector) (patient sample : ParsedGeneticData)
  : list IBDSegment :=
  let (segs, current) := fold_left (ibd_step self sample) (variants patient) ([], None) in
  match current with
  | Some cur => close_segment self segs cur
  | None => segs
  end.

(** [IBDDetector::calculate_confidence] *)
Definition calculate_confidence (total_shared_cm : f64) (count : nat) : f32 :=
  let cm_confidence := f64_min (f64_div total_shared_cm (f64_of_Z 500)) (f64_of_Z 1) in
  let segment_confidence := f64_min (f64_div (f64_of_nat count) (f64_of_Z 50)) (f64_of_Z 1) in
  f32_of_f64 (f64_div (f64_add cm_confidence segment_confidence) (f64_of_Z 2)).

(** [IBDDetector::detect_sample]; [Iterator::sum] of [f64] folds [+] from
    its neutral element -0.0, [fold(0.0, f64::max)] from 0.0. *)
Definition detect_sample (self : IBDDetector) (patient sample : ParsedGeneticData)
  : result IBDSegmentResult :=
  let segs := find_ibd_segments self patient sample in
  let lens := map length_cm segs in
  let total := fold_left f64_add lens (S754_zero true) in
  let count := List.length segs in
  let largest := fold_left f64_max lens (S754_zero false) in
  Ok {| ibd_sample_id := sample_id sample;
        total_shared_cm := total;
        segment_count := count;
        largest_segment_cm := largest;
        segments := segs;
        predicted_relationship := from_shared_cm total;
        ibd_confidence := calculate_confidence total count |}.

(** [IBDDetector::detect] *)
Definition detect (self : IBDDetector) (patient : ParsedGeneticData)
    (comparisons : list ParsedGeneticData) : result (list IBDSegmentResult) :=
  par_map_collect (detect_sample self patient) comparisons.

(** ** Text utilities of the parsers *)

Definition char_tab : ascii := ascii_of_nat 9.

(** ASCII whitespace, as [str::trim] sees it on ASCII text. *)
Definition is_space (c : ascii) : bool :=
  existsb (Ascii.eqb c) [" "%char; ascii_of_nat 9; ascii_of_nat 10;
                         ascii_of_nat 11; ascii_of_nat 12; ascii_of_nat 13].

Fixpoint trim_start (s : string) : string :=
  match s with
  | String c r => if is_space c then trim_start r else s
  | EmptyString => EmptyString
  end.

Fixpoint rev_string (s : string) (acc : string) : string :=
  match s with
  | EmptyString => acc
  | String c r => rev_string r (String c acc)
  end.

(** [str::trim] *)
Definition trim (s : string) : string :=
  rev_string (trim_start (rev_string (trim_start s) EmptyString)) EmptyString.

(** [str::split(delimiter)] for a [char] delimiter. *)
Fixpoint split_on (d : ascii) (s : string) : list string :=
  match s with
  | EmptyString => [EmptyString]
  | String c r =>
      let parts := split_on d r in
      if Ascii.eqb c d then EmptyString :: parts
      else match parts with
           | p :: ps => String c p :: ps
           | [] => [String c EmptyString]
           end
  end.

Definition ascii_lower (c : ascii) : ascii :=
  let n := nat_of_ascii c in
  if (Nat.leb 65 n && Nat.leb n 90)%bool then ascii_of_nat (n + 32) else c.

Definition ascii_upper (c : ascii) : ascii :=
  let n := nat_of_ascii c in
  if (Nat.leb 97 n && Nat.leb n 122)%bool then ascii_of_nat (n - 32) else c.

(** [str::to_lowercase] and [str::to_uppercase] on ASCII text. *)
Fixpoint to_lowercase (s : string) : string :=
  match s with
  | EmptyString => EmptyString
  | String c r => String (ascii_lower c) (to_lowercase r)
  end.
Fixpoint to_uppercase (s : string) : string :=
  match s with
  | EmptyString => EmptyString
  | String c r => String (ascii_upper c) (to_uppercase r)
  end.

Definition contains_char (d : ascii) (s : string) : bool :=
  existsb (Ascii.eqb d) (list_ascii_of_string s).

(** [str::parse::<u64>]: an optional '+', then one or more decimal digits,
    the value below 2^64. *)
Fixpoint parse_digits (s : string) (acc : Z) : option Z :=
  match s with
  | EmptyString => Some acc
  | String c r =>
      let n := nat_of_ascii c in
      if (Nat.leb 48 n && Nat.leb n 57)%bool
      then parse_digits r (acc * 10 + Z.of_nat (n - 48))
      else None
  end.

Definition parse_u64 (s : string) : option Z :=
  let body := match s with
              | String "+"%char r => r
              | _ => s
              end in
  match body with
  | EmptyString => None
  | _ => match parse_digits body 0 with
         | Some v => if Z.ltb v u64_modulus then Some v else None
         | None => None
         end
  end.

(** ** parsers/mod.rs: shared parsing helpers *)

(** Modelled from the spec: [detect_delimiter] (section 4.2, generic
    delimited dialect): tab or comma, detected from the first line. *)
Definition detect_delimiter (first_line : string) : ascii :=
  if contains_char char_tab first_line then char_tab
  else if contains_char ","%char first_line then ","%char
  else char_tab.

Definition strip_prefix_ci (pre s : string) : option string :=
  if String.eqb (to_lowercase (substring 0 (String.length pre) s)) pre
  then Some (substring (String.length pre) (String.length s) s) else None.

(** Modelled from the spec: [normalize_chromosome] (section 4.1): strip a
    "chr" prefix case-insensitively, upper-case, and map the mitochondrial
    aliases "M" and "MT" to "MT". *)
Definition normalize_chromosome (raw : string) : string :=
  let body := match strip_prefix_ci "chr" (trim raw) with
              | Some r => r
              | None => trim raw
              end in
  let up := to_uppercase body in
  if str_in up ["M"; "MT"] then "MT" else up.

(** Modelled from the spec: [parse_genotype] (section 4.1): the rules of
    section 3 ([from_string]), except that a two-character allele pair that
    is not one of the exact tokens of section 3 (consumer style, e.g. "AG")
    is homozygous when its characters are equal (reference when the
    character is the reference allele, alternate otherwise) and
    heterozygous when they differ. *)
Definition parse_genotype (raw reference : string) (_alternates : list string)
  : Genotype :=
  if str_in raw ["0/0"; "0|0"; "AA"; "1/1"; "1|1"; "BB";
                 "0/1"; "0|1"; "1/0"; "1|0"; "AB"; "BA"; "./."; ".|."; ""]
  then from_string raw
  else match raw with
       | String c1 (String c2 EmptyString) =>
           if (is_sep c1 || is_sep c2 || Ascii.eqb c1 "."%char
               || Ascii.eqb c2 "."%char)%bool
           then from_string raw
           else if Ascii.eqb c1 c2 then
             (if String.eqb (String c1 EmptyString) reference
              then HomozygousReference else HomozygousAlternate)
           else Heterozygous
       | _ => from_string raw
       end.

(** ** parsers/tsv_parser.rs: the generic delimited dialect *)

(** The [HashMap<String, usize>] of column indices: [insert] puts the new
    binding in front, [get] returns the first one, so the last insert of a
    key wins. *)
Definition column_mapping : Type := list (string * nat).

Definition map_get (k : string) (m : column_mapping) : option nat :=
  option_map snd (find (fun e => String.eqb (fst e) k) m).

Definition map_insert (k : string) (i : nat) (m : column_mapping) : column_mapping :=
  (k, i) :: m.

(** The [match header_lower.as_str()] of [map_columns] for one header. *)
Definition map_header (i : nat) (header : string) (m : column_mapping)
  : column_mapping :=
  let header_lower := to_lowercase (trim header) in
  if str_in header_lower ["chromosome"; "chr"; "chrom"] then map_insert "chromosome" i m
  else if str_in header_lower ["position"; "pos"; "bp"] then map_insert "position" i m
  else if str_in header_lower ["rsid"; "rs#"; "snp"] then map_insert "rsid" i m
  else if str_in header_lower ["genotype"; "gt"; "allele1"; "allele2"]
  then map_insert "genotype" i m
  else if str_in header_lower ["reference"; "ref"] then map_insert "reference" i m
  else if str_in header_lower ["alternate"; "alt"] then map_insert "alternate" i m
  else m.

Fixpoint map_headers (i : nat) (headers : list string) (m : column_mapping)
  : column_mapping :=
  match headers with
  | [] => m
  | h :: hs => map_headers (S i) hs (map_header i h m)
  end.

(** [TsvParser::map_columns] *)
Definition map_columns (headers : list string) : result column_mapping :=
  let mapping := map_headers 0 headers [] in
  match map_get "chromosome" mapping, map_get "position" mapping with
  | Some _, Some _ => Ok mapping
  | _, _ => Err "Required columns (chromosome, position) not found"
  end.

(** [parts[idx]] guarded by [idx < parts.len()]. *)
Definition field_at (parts : list string) (idx : nat) : option string :=
  nth_error parts idx.

Definition ok_or {A : Type} (o : option A) (msg : string) : result A :=
  match o with
  | Some a => Ok a
  | None => Err msg
  end.

(** [TsvParser::parse_data_line] *)
Definition parse_data_line (line0 : string) (delimiter : ascii)
    (mapping : column_mapping) (data : ParsedGeneticData)
  : result ParsedGeneticData :=
  let line := trim line0 in
  if String.eqb line "" then Ok data else
  let parts := split_on delimiter line in
  chromosome_idx <- ok_or (map_get "chromosome" mapping) "Chromosome column not found" ;;
  position_idx <- ok_or (map_get "position" mapping) "Position column not found" ;;
  match field_at parts chromosome_idx, field_at parts position_idx with
  | Some chr_field, Some pos_field =>
      let chromosome := normalize_chromosome chr_field in
      position <- ok_or (parse_u64 pos_field) ("Invalid position: " ++ pos_field) ;;
      let rsid :=
        match map_get "rsid" mapping with
        | Some idx =>
            match field_at parts idx with
            | Some f => if (String.eqb f "." || String.eqb f "")%bool then None else Some f
            | None => None
            end
        | None => None
        end in
      let opt_field k :=
        match map_get k mapping with
        | Some idx => match field_at parts idx with Some f => f | None => "" end
        | None => ""
        end in
      let reference := opt_field "reference" in
      let alternate := opt_field "alternate" in
      let genotype :=
        match map_get "genotype" mapping with
        | Some genotype_idx =>
            match field_at parts genotype_idx with
            | Some f => parse_genotype f reference [alternate]
            | None => NoCall
            end
        | None =>
            let allele1 := match map_get "allele1" mapping with
                           | Some idx => field_at parts idx | None => None end in
            let allele2 := match map_get "allele2" mapping with
                           | Some idx => field_at parts idx | None => None end in
            match allele1, allele2 with
            | Some a1, Some a2 => parse_genotype (a1 ++ a2) reference [alternate]
            | _, _ => NoCall
            end
        end in
      Ok (add_variant
            {| v_chromosome := chromosome;
               v_position := position;
               rsid := rsid;
               reference_allele := reference;
               alternate_alleles := if String.eqb alternate "" then [] else [alternate];
               genotype := genotype;
               quality := None;
               vfilter := None;
               info := [] |} data)
  | _, _ => Err "Line has insufficient columns"
  end.

Fixpoint parse_data_lines (lines : list string) (delimiter : ascii)
    (mapping : column_mapping) (data : ParsedGeneticData)
  : result ParsedGeneticData :=
  match lines with
  | [] => Ok data
  | l :: ls => d <- parse_data_line l delimiter mapping data ;;
               parse_data_lines ls delimiter mapping d
  end.

(** [TsvParser::parse] on the lines of a file: the first line (empty for
    an empty file) is the header row; [initialize_data] names the sample
    after the file stem and [path] is the source path. *)
Definition tsv_parse (file_stem path : string) (lines : list string)
  : result ParsedGeneticData :=
  let data := {| sample_id := file_stem; source_file := path; genome_build := "";
                 variants := []; hla_alleles := [] |} in
  let first_line := match lines with [] => "" | l :: _ => l end in
  let delimiter := detect_delimiter first_line in
  let headers := split_on delimiter (trim first_line) in
  mapping <- map_columns headers ;;
  parse_data_lines (tl lines) delimiter mapping data.

(** ** main.rs: run_analysis *)

Inductive AnalysisType :=
| All | OrganCompatibility | Disease | HLA | IBD | Pharmacogenomics | Relationship.

(** The fields of [AppConfig] the analysis steps read; the comparison paths,
    the recursion flag, threads, output format and directory are consumed by
    discovery and report generation, which are parameters below. *)
Record AppConfig := mkAppConfig {
  patient : string;
  analysis : AnalysisType;
  cfg_organ : option OrganType;
  cfg_min_cm : f64;
  cfg_min_segment_length : nat
}.

Record AnalysisResults := mkAnalysisResults {
  organ_compatibility : list OrganCompatibilityResult;
  disease_risks : list DiseaseRiskResult;
  ar_hla_matches : list HLAMatchResult;
  ibd_segments : list IBDSegmentResult;
  pharmacogenomics : list PharmacogenomicResult
}.

Definition empty_results : AnalysisResults :=
  {| organ_compatibility := []; disease_risks := []; ar_hla_matches := [];
     ibd_segments := []; pharmacogenomics := [] |}.

(** The diagnostics [run_analysis] logs: [info!] with the number of files
    found and of comparison files parsed, [warn!] with a path and the
    error of a failed parse. *)
Inductive LogEntry :=
| InfoFound (n : nat)
| WarnParseFailed (path : string) (err : string)
| InfoParsed (n : nat).

Section RunAnalysis.

(** [FileDiscovery::discover] on the configured paths. *)
Variable discover : AppConfig -> result (list string).
(** [FileParser::parse]: the dispatcher over the dialects. *)
Variable parse_file : string -> result ParsedGeneticData.
(** [ReportGenerator::generate] on the results. *)
Variable generate : AnalysisResults -> result unit.
Variable fmt_f32 : nat -> f32 -> string.

(** Step 3: [files.par_iter().filter_map(...).collect()]; the kept samples
    in order, and a warning per file that failed to parse. *)
Fixpoint parse_comparisons (files : list string)
  : list ParsedGeneticData * list LogEntry :=
  match files with
  | [] => ([], [])
  | path :: rest =>
      let '(ds, ws) := parse_comparisons rest in
      match parse_file path with
      | Ok d => (d :: ds, ws)
      | Err e => (ds, WarnParseFailed path e :: ws)
      end
  end.

(** Step 4: the analyzers selected by [config.analysis], each result list
    propagated with [?]. *)
Definition run_analyzers (config : AppConfig) (patient_data : ParsedGeneticData)
    (comparison_data : list ParsedGeneticData) : result AnalysisResults :=
  let a := analysis config in
  r1 <- (match a with
         | All | OrganCompatibility =>
             oc <- check (mkOrganCompatibilityChecker (cfg_organ config))
                         patient_data comparison_data ;;
             Ok {| organ_compatibility := oc; disease_risks := [];
                   ar_hla_matches := []; ibd_segments := []; pharmacogenomics := [] |}
         | _ => Ok empty_results
         end) ;;
  r2 <- (match a with
         | All | Disease =>
             dr <- analyze_disease patient_data comparison_data ;;
             Ok {| organ_compatibility := organ_compatibility r1; disease_risks := dr;
                   ar_hla_matches := []; ibd_segments := []; pharmacogenomics := [] |}
         | _ => Ok r1
         end) ;;
  r3 <- (match a with
         | All | HLA =>
             hm <- analyze_hla patient_data comparison_data ;;
             Ok {| organ_compatibility := organ_compatibility r2;
                   disease_risks := disease_risks r2; ar_hla_matches := hm;
                   ibd_segments := []; pharmacogenomics := [] |}
         | _ => Ok r2
         end) ;;
  r4 <- (match a with
         | All | IBD | Relationship =>
             ib <- detect (mkIBDDetector (cfg_min_cm config) (cfg_min_segment_length config))
                          patient_data comparison_data ;;
             Ok {| organ_compatibility := organ_compatibility r3;
                   disease_risks := disease_risks r3; ar_hla_matches := ar_hla_matches r3;
                   ibd_segments := ib; pharmacogenomics := [] |}
         | _ => Ok r3
         end) ;;
  match a with
  | All | Pharmacogenomics =>
      pg <- compare fmt_f32 patient_data comparison_data ;;
      Ok {| organ_compatibility := organ_compatibility r4;
            disease_risks := disease_risks r4; ar_hla_matches := ar_hla_matches r4;
            ibd_segments := ibd_segments r4; pharmacogenomics := pg |}
  | _ => Ok r4
  end.

(** [run_analysis]: the diagnostics logged, and the outcome (the results
    handed to the report generator when the run succeeds). *)
Definition run_analysis (config : AppConfig) : list LogEntry * result AnalysisResults :=
  match discover config with
  | Err e => ([], Err e)
  | Ok files_to_process =>
      let found := [InfoFound (List.length files_to_process)] in
      match parse_file (patient config) with
      | Err e => (found, Err e)
      | Ok patient_data =>
          let '(comparison_data, warnings) := parse_comparisons files_to_process in
          let logs := (found ++ warnings ++ [InfoParsed (List.length comparison_data)])%list in
          (logs,
           results <- run_analyzers config patient_data comparison_data ;;
           _ <- generate results ;;
           Ok results)
      end
  end.

End RunAnalysis.

(** ** types.rs: the remaining genotype predicates *)

(** [Genotype::is_heterozygous] *)
Definition is_heterozygous (g : Genotype) : bool :=
  match g with
  | Heterozygous | HeterozygousAltAlt => true
  | _ => false
  end.

(** [Genotype::is_no_call] *)
Definition is_no_call (g : Genotype) : bool :=
  match g with
  | NoCall | Partial => true
  | _ => false
  end.

(** The branch of [from_string] for a token split into two pieces. *)
Definition pieces_genotype (p0 p1 : string) : Genotype :=
  if String.eqb p0 p1 then
    (if String.eqb p0 "0" then HomozygousReference else HomozygousAlternate)
  else if (String.eqb p0 "0" || String.eqb p1 "0")%bool then Heterozygous
  else HeterozygousAltAlt.

(** ** types.rs: FileFormat *)

Module FileFormat.

Inductive t :=
| VCF | BCF | BED | FASTA | FASTQ | AndMe | AncestryDNA | FTDNA | MyHeritage
| PLINK | GVF | GFF | SAM | BAM | CRAM | GenBank | CSV | TSV | TXT | Unknown.

(** [FileFormat::from_extension] *)
Definition from_extension (ext : string) : t :=
  let e := to_lowercase ext in
  if str_in e ["vcf"; "vcf.gz"] then VCF
  else if str_in e ["bcf"] then BCF
  else if str_in e ["bed"] then BED
  else if str_in e ["fa"; "fasta"; "fna"] then FASTA
  else if str_in e ["fq"; "fastq"] then FASTQ
  else if str_in e ["txt"] then TXT
  else if str_in e ["csv"] then CSV
  else if str_in e ["tsv"] then TSV
  else if str_in e ["ped"; "map"; "bim"; "fam"] then PLINK
  else if str_in e ["gvf"] then GVF
  else if str_in e ["gff"; "gff3"] then GFF
  else if str_in e ["sam"] then SAM
  else if str_in e ["bam"] then BAM
  else if str_in e ["cram"] then CRAM
  else if str_in e ["gb"; "gbk"] then GenBank
  else Unknown.

(** [FileFormat::is_genetic_format] *)
Definition is_genetic_format (f : t) : bool :=
  match f with
  | Unknown => false
  | _ => true
  end.

End FileFormat.

(** ** discovery.rs: FileDiscovery *)

(** [Path::file_name] of a path with '/' separators, no trailing separator
    and no "." component: its last component. *)
Definition file_name (p : string) : string := last (split_on "/"%char p) "".

(** The split of a file name at its last '.': the parts before and after. *)
Fixpoint rsplit_dot (s : string) : option (string * string) :=
  match s with
  | EmptyString => None
  | String c r =>
      match rsplit_dot r with
      | Some (before, after) => Some (String c before, after)
      | None => if Ascii.eqb c "."%char then Some (EmptyString, r) else None
      end
  end.

(** [Path::extension]: the part of the file name after its last '.', none
    when the name has no '.', when its only '.' is the first character, or
    when it is "..". *)
Definition path_extension (p : string) : option string :=
  let name := file_name p in
  if String.eqb name ".." then None
  else match rsplit_dot name with
       | Some (before, after) => if String.eqb before "" then None else Some after
       | None => None
       end.

(** [str::contains] on a string pattern, and [str::starts_with]. *)
Fixpoint str_contains (needle hay : string) : bool :=
  (prefix needle hay ||
   match hay with
   | EmptyString => false
   | String _ r => str_contains needle r
   end)%bool.

(** What discovery reads from the file system: [Path::exists],
    [Path::is_file], [Path::is_dir]; the lines of a file ([None] when it
    cannot be opened, a [None] line when reading it fails); [fs::read_dir]
    ([None] when the directory cannot be read, a [None] entry when reading
    it fails); the entries [WalkDir] yields ([None] for an error); the
    current directory; and whether [FileParser::parse] accepts a file. *)
Record FileSystem := mkFileSystem {
  fs_exists : string -> bool;
  fs_is_file : string -> bool;
  fs_is_dir : string -> bool;
  fs_lines : string -> option (list (option string));
  fs_read_dir : string -> option (list (option string));
  fs_walk : string -> list (option string);
  fs_current_dir : option string;
  fs_parses : string -> bool
}.

(** The extensions [is_potential_genetic_file] accepts without reading. *)
Definition potential_extensions : list string :=
  ["vcf"; "bcf"; "bed"; "fa"; "fasta"; "fna"; "fq"; "fastq"; "txt"; "csv";
   "tsv"; "ped"; "map"; "bim"; "fam"; "gvf"; "gff"; "gff3"; "sam";
   "bam"; "cram"; "gb"; "gbk"; "gz"; "bz2"; "xz"].

(** The checks of [is_text_file_with_genetic_patterns] on one line. *)
Definition genetic_pattern_line (line : string) : bool :=
  let line_lower := to_lowercase line in
  ((str_contains "rsid" line_lower
    && (str_contains "chromosome" line_lower || str_contains "chr" line_lower)
    && str_contains "position" line_lower)
   || prefix "##fileformat=VCF" line
   || (prefix "#" line && str_contains "AncestryDNA" line)
   || str_contains "# This data file generated by 23andMe" line)%bool.

(** [FileDiscovery::is_text_file_with_genetic_patterns]: the first five
    lines read, a line that fails to read being skipped. *)
Definition is_text_file_with_genetic_patterns (fs : FileSystem) (path : string) : bool :=
  match fs_lines fs path with
  | Some lines =>
      existsb (fun ol => match ol with
                         | Some line => genetic_pattern_line line
                         | None => false
                         end) (firstn 5 lines)
  | None => false
  end.

(** [FileDiscovery::is_potential_genetic_file] *)
Definition is_potential_genetic_file (fs : FileSystem) (path : string) : bool :=
  match path_extension path with
  | Some ext =>
      if str_in (to_lowercase ext) potential_extensions then true
      else is_text_file_with_genetic_patterns fs path
  | None => is_text_file_with_genetic_patterns fs path
  end.

(** The loop of the non-recursive branch of [discover_in_directory]: an
    entry that fails to read fails the call. *)
Fixpoint collect_entries (fs : FileSystem) (dir : string) (entries : list (option string))
  : result (list string) :=
  match entries with
  | [] => Ok []
  | None :: _ => Err ("Failed to read directory entry in: " ++ dir)
  | Some path :: rest =>
      if (fs_is_file fs path && is_potential_genetic_file fs path)%bool
      then (r <- collect_entries fs dir rest ;; Ok (path :: r))
      else collect_entries fs dir rest
  end.

(** [FileDiscovery::discover_in_directory]: the recursive walk drops the
    entries it fails to read ([filter_map(|e| e.ok())]). *)
Definition discover_in_directory (fs : FileSystem) (recursive : bool) (dir : string)
  : result (list string) :=
  if recursive then
    Ok (List.filter (fun path => fs_is_file fs path && is_potential_genetic_file fs path)%bool
          (flat_map (fun oe => match oe with Some p => [p] | None => [] end) (fs_walk fs dir)))
  else
    match fs_read_dir fs dir with
    | None => Err ("Failed to read directory: " ++ dir)
    | Some entries => collect_entries fs dir entries
    end.

(** The loop of [discover] over the comparison paths. *)
Fixpoint collect_compare_paths (fs : FileSystem) (recursive : bool) (paths : list string)
  : result (list string) :=
  match paths with
  | [] => Ok []
  | path :: rest =>
      if fs_is_file fs path then
        (r <- collect_compare_paths fs recursive rest ;; Ok (path :: r))
      else if fs_is_dir fs path then
        (dir_files <- discover_in_directory fs recursive path ;;
         r <- collect_compare_paths fs recursive rest ;;
         Ok (dir_files ++ r)%list)
      else collect_compare_paths fs recursive rest
  end.

(** [files.retain(|path| seen.insert(path.clone()))]: the first occurrence of
    each path is kept (paths compared as strings). *)
Fixpoint retain_unseen (seen : list string) (files : list string) : list string :=
  match files with
  | [] => []
  | path :: rest =>
      if str_in path seen then retain_unseen seen rest
      else path :: retain_unseen (path :: seen) rest
  end.

(** [FileDiscovery::filter_genetic_files] *)
Definition filter_genetic_files (fs : FileSystem) (files : list string)
  : result (list string) :=
  Ok (List.filter
        (fun file =>
           match path_extension file with
           | Some ext =>
               if FileFormat.is_genetic_format (FileFormat.from_extension ext) then true
               else fs_parses fs file
           | None => fs_parses fs file
           end) files).

(** [FileDiscovery::discover] *)
Definition discover (fs : FileSystem) (recursive : bool) (patient_path : string)
    (compare_paths : list string) : result (list string) :=
  let patient_files := if fs_exists fs patient_path then [patient_path] else [] in
  compared <- collect_compare_paths fs recursive compare_paths ;;
  let files := (patient_files ++ compared)%list in
  files <- (match files, recursive with
            | [], true =>
                current_dir <- ok_or (fs_current_dir fs) "Failed to get current directory" ;;
                discover_in_directory fs recursive current_dir
            | _, _ => Ok files
            end) ;;
  filter_genetic_files fs (retain_unseen [] files).

(** ** Example inputs *)

Definition example_variant (chr : string) (pos : Z) (rs : option string)
    (g : Genotype) : Variant :=
  {| v_chromosome := chr; v_position := pos; rsid := rs; reference_allele := "C";
     alternate_alleles := ["T"]; genotype := g; quality := None; vfilter := None;
     info := [] |}.

Definition empty_sample (id : string) : ParsedGeneticData :=
  {| sample_id := id; source_file := id; genome_build := "GRCh38";
     variants := []; hla_alleles := [] |}.

(** A patient with variants at 1,000, 500,000 and 900,000 of chromosome 1,
    an unshared one in between, and the APOE marker rs429358. *)
Definition example_patient : ParsedGeneticData :=
  add_variant (example_variant "19" 44908684 (Some "rs429358") Heterozygous)
  (add_variant (example_variant "1" 900000 None HomozygousAlternate)
  (add_variant (example_variant "1" 700000 None Heterozygous)
  (add_variant (example_variant "1" 500000 None Heterozygous)
  (add_variant (example_variant "1" 1000 None HomozygousReference)
     (empty_sample "patient"))))).

Definition example_sample : ParsedGeneticData :=
  add_variant (example_variant "1" 1000 None NoCall)
  (add_variant (example_variant "1" 900000 None Partial)
  (add_variant (example_variant "1" 500000 None HeterozygousAltAlt)
     (empty_sample "sample"))).

(** A generic delimited file with separate allele columns and no genotype
    column, tab-delimited. *)
Definition tab_joined (fields : list string) : string :=
  concat (String char_tab EmptyString) fields.

Definition allele_header : string :=
  tab_joined ["chromosome"; "position"; "allele1"; "allele2"].

Definition allele_line : string := tab_joined ["1"; "100"; "A"; "G"].

(** ** Auxiliary definitions of the statements *)



(** The number of coordinates of an open segment (0 when none is open). *)
Definition open_count (cur : option open_segment) : nat :=
  match cur with
  | Some (_, _, _, count) => count
  | None => 0%nat
  end.

Definition seg_total (segs : list IBDSegment) : nat := list_sum (map snp_count segs).

Definition seg_size_ok (self : IBDDetector) (seg : IBDSegment) : Prop :=
  (min_segment_length self <= snp_count seg)%nat /\ (1 <= snp_count seg)%nat.

Definition is_some {A : Type} (o : option A) : bool :=
  match o with Some _ => true | None => false end.

Definition mapping_keys : list string :=
  ["chromosome"; "position"; "rsid"; "genotype"; "reference"; "alternate"].

(** The directory of the discovery unit test: "invalid.txt" holds no
    genetic data and is still returned. *)
Definition test_dir_fs : FileSystem :=
  mkFileSystem (fun _ => true) (fun p => negb (String.eqb p "tmp"))
    (fun p => String.eqb p "tmp")
    (fun p => if String.eqb p "tmp/invalid.txt" then Some [Some "This is not genetic data"]
              else Some [])
    (fun d => if String.eqb d "tmp"
              then Some [Some "tmp/test.vcf"; Some "tmp/data.txt"; Some "tmp/invalid.txt"]
              else None)
    (fun _ => []) None (fun _ => false).

(** ** Theorems *)

(** Claim C1: [is_compatible a b] follows the truth table of section 4.3:
    a NoCall on either side, HomozygousReference or HomozygousAlternate
    against itself or against Heterozygous, Heterozygous against itself and
    every other pair (HeterozygousAltAlt or Partial on either side included)
    are compatible.  Every pair is thus compatible, in particular every
    homozygous genotype with itself. *)
Theorem is_compatible_truth_table :
  forall a b : Genotype, is_compatible a b = true.
Proof. intros [] []; reflexivity. Qed.

(** Claim C3: whenever the classification rules of section 3 decide a
    token, [Genotype::from_string] returns the genotype they give: the exact
    tokens, the split into two pieces (equal non-zero, exactly one zero, two
    distinct non-zero) and the Partial default for tokens without
    separator. *)
Theorem from_string_follows_rules :
  forall (s : string) (g : Genotype),
    genotype_rules s = Some g -> from_string s = g.
Proof.
  intros s g H. unfold genotype_rules, from_string in *.
  destruct (str_in s ["0/0"; "0|0"; "AA"]); [congruence|].
  destruct (str_in s ["1/1"; "1|1"; "BB"]); [congruence|].
  destruct (str_in s ["0/1"; "0|1"; "1/0"; "1|0"; "AB"; "BA"]); [congruence|].
  replace (str_in s ["./."; ".|."; ""]) with (str_in s [""; "./."; ".|."])
    by (unfold str_in; simpl; destruct (String.eqb s ""), (String.eqb s "./."),
        (String.eqb s ".|."); reflexivity).
  destruct (str_in s [""; "./."; ".|."]); [congruence|].
  destruct (contains_sep s); [|congruence].
  destruct (split_seps s) as [|a1 [|a2 [|? ?]]]; try discriminate.
  destruct (String.eqb a1 a2) eqn:E12, (String.eqb a1 "0") eqn:E1,
           (String.eqb a2 "0") eqn:E2; simpl in H |- *; try congruence.
  all: apply String.eqb_eq in E12; subst a2; congruence.
Qed.

(** Witness for claim C3: the rules decide "1/2", and [from_string] agrees. *)
Lemma from_string_follows_rules_witness :
  genotype_rules "1/2" = Some HeterozygousAltAlt /\
  from_string "1/2" = HeterozygousAltAlt.
Proof.
  split; [reflexivity|].
  apply from_string_follows_rules. reflexivity.
Defined.

(** *** Helper lemmas *)

Lemma is_compatible_always : forall a b, is_compatible a b = true.
Proof. intros [] []; reflexivity. Qed.

(** The fan-out of an always-successful per-sample function succeeds with
    one result per sample, in order. *)
Lemma par_map_collect_total {A B : Type} (f : A -> result B) :
  (forall x, exists y, f x = Ok y) ->
  forall l, exists ys, par_map_collect f l = Ok ys /\ map f l = map Ok ys.
Proof.
  intros Hf l. induction l as [|x l IH]; simpl.
  - exists []. split; reflexivity.
  - destruct (Hf x) as [y Hy]. destruct IH as [ys [Hys Hmap]].
    exists (y :: ys). rewrite Hy. simpl. rewrite Hys. simpl.
    rewrite Hmap. split; reflexivity.
Qed.

Lemma map_Ok_length {A B : Type} (f : A -> result B) (l : list A) (ys : list B) :
  map f l = map Ok ys -> List.length ys = List.length l.
Proof.
  intros H. rewrite <- (length_map f l), H, length_map. reflexivity.
Qed.

(** A fan-out over an always-successful per-sample function: its results,
    their number and their order. *)
Ltac fanout_total f l :=
  let H := fresh "H" in
  destruct (par_map_collect_total f ltac:(intros; eexists; reflexivity) l)
    as [? [H ?]];
  eexists; split; [exact H|]; split; [eapply map_Ok_length; eassumption|assumption].

Lemma parse_comparisons_split (parse_file : string -> result ParsedGeneticData) :
  forall files,
    parse_comparisons parse_file files =
    (flat_map (fun f => match parse_file f with Ok d => [d] | Err _ => [] end) files,
     flat_map (fun f => match parse_file f with
                        | Ok _ => [] | Err e => [WarnParseFailed f e] end) files).
Proof.
  induction files as [|f files IH]; [reflexivity|].
  cbn [parse_comparisons flat_map]. rewrite IH.
  destruct (parse_file f); reflexivity.
Qed.

(** Every analyzer step of [run_analysis] succeeds. *)
Lemma run_analyzers_total (fmt_f32 : nat -> f32 -> string) (config : AppConfig)
    (patient_data : ParsedGeneticData) (comparison_data : list ParsedGeneticData) :
  exists results, run_analyzers fmt_f32 config patient_data comparison_data = Ok results.
Proof.
  destruct (par_map_collect_total (check_sample (mkOrganCompatibilityChecker (cfg_organ config)) patient_data)
              ltac:(intros; eexists; reflexivity) comparison_data) as [oc [Hoc _]].
  destruct (par_map_collect_total (analyze_disease_sample patient_data)
              ltac:(intros; eexists; reflexivity) comparison_data) as [dr [Hdr _]].
  destruct (par_map_collect_total (analyze_hla_sample patient_data)
              ltac:(intros; eexists; reflexivity) comparison_data) as [hm [Hhm _]].
  destruct (par_map_collect_total
              (detect_sample (mkIBDDetector (cfg_min_cm config) (cfg_min_segment_length config))
                 patient_data)
              ltac:(intros; eexists; reflexivity) comparison_data) as [ib [Hib _]].
  destruct (par_map_collect_total (compare_sample fmt_f32 patient_data)
              ltac:(intros; eexists; reflexivity) comparison_data) as [pg [Hpg _]].
  unfold run_analyzers, check, analyze_disease, analyze_hla, detect, compare.
  rewrite Hoc, Hdr, Hhm, Hib, Hpg.
  destruct (analysis config); simpl; eexists; reflexivity.
Qed.

(** Whether a coordinate of the patient is stored in the sample. *)
Definition in_sample (sample : ParsedGeneticData) (c : Coordinate) : bool :=
  match get_variant sample (chromosome c) (position c) with
  | Some _ => true
  | None => false
  end.

(** Variants of the patient absent from the sample leave the IBD loop
    state unchanged. *)
Lemma ibd_fold_filter (self : IBDDetector) (sample : ParsedGeneticData) :
  forall l st,
    fold_left (ibd_step self sample) l st
    = fold_left (ibd_step self sample)
        (List.filter (fun cv => in_sample sample (fst cv)) l) st.
Proof.
  induction l as [|[c v] l IH]; intros st; [reflexivity|].
  cbn [fold_left List.filter fst].
  destruct (in_sample sample c) eqn:E; cbn [fold_left].
  - apply IH.
  - rewrite <- IH. f_equal. unfold in_sample in E. unfold ibd_step.
    destruct st as [segs cur].
    destruct (get_variant sample (chromosome c) (position c)); [discriminate|].
    reflexivity.
Qed.

Lemma ibd_step_present (self : IBDDetector) (sample : ParsedGeneticData)
    (segs : list IBDSegment) (cur : option open_segment) (c : Coordinate) (v : Variant) :
  in_sample sample c = true ->
  ibd_step self sample (segs, cur) (c, v) =
  match cur with
  | None => (segs, Some (chromosome c, position c, position c, 1%nat))
  | Some (chr, start, end_, count) =>
      if (String.eqb chr (chromosome c) && Z.leb (position c) (u64_add end_ 1000000))%bool
      then (segs, Some (chr, start, position c, S count))
      else (close_segment self segs (chr, start, end_, count),
            Some (chromosome c, position c, position c, 1%nat))
  end.
Proof.
  unfold in_sample, ibd_step. intros H.
  destruct (get_variant sample (chromosome c) (position c)) as [sv|]; [|discriminate].
  rewrite is_compatible_always. reflexivity.
Qed.

(** Claim C2: for a patient whose variants present in the sample are, in
    stored order, the coordinates 1,000, 500,000 and 900,000 of chromosome
    "1" (every genotype pair being compatible), a detector with minimum
    segment coordinate count 2 finds exactly one segment, from 1,000 to
    900,000 with its 3 coordinates, whose length in cM is the binary64
    number nearest to 0.899 (899,000 bp / 1,000,000). *)
Theorem ibd_example_one_segment :
  forall (self : IBDDetector) (patient sample : ParsedGeneticData),
    min_segment_length self = 2%nat ->
    map fst (List.filter (fun cv => in_sample sample (fst cv)) (variants patient))
      = [mkCoordinate "1" 1000; mkCoordinate "1" 500000; mkCoordinate "1" 900000] ->
    find_ibd_segments self patient sample = [create_segment "1" 1000 900000 3]
    /\ seg_start (create_segment "1" 1000 900000 3) = 1000%Z
    /\ seg_end (create_segment "1" 1000 900000 3) = 900000%Z
    /\ length_cm (create_segment "1" 1000 900000 3) = f64_lit 899 1000.
Proof.
  intros self patient sample Hmin Hcoords.
  split; [|split; [reflexivity|split; [reflexivity|vm_compute; reflexivity]]].
  unfold find_ibd_segments. rewrite ibd_fold_filter.
  assert (Hin : forall x, In x (List.filter (fun cv => in_sample sample (fst cv))
                                          (variants patient)) ->
                          in_sample sample (fst x) = true)
    by (intros x Hx; apply filter_In in Hx; tauto).
  revert Hin Hcoords.
  generalize (List.filter (fun cv => in_sample sample (fst cv)) (variants patient)).
  intros l Hin Hcoords.
  destruct l as [|[c1 v1] [|[c2 v2] [|[c3 v3] [|]]]]; simpl in Hcoords; try discriminate.
  injection Hcoords as E1 E2 E3.
  pose proof (Hin (c1, v1) ltac:(simpl; auto)) as H1.
  pose proof (Hin (c2, v2) ltac:(simpl; auto)) as H2.
  pose proof (Hin (c3, v3) ltac:(simpl; auto)) as H3.
  simpl in H1, H2, H3. subst c1 c2 c3.
  cbn [fold_left].
  rewrite (ibd_step_present _ _ _ _ _ _ H1); cbn -[ibd_step close_segment].
  rewrite (ibd_step_present _ _ _ _ _ _ H2); cbn -[ibd_step close_segment].
  rewrite (ibd_step_present _ _ _ _ _ _ H3); cbn -[ibd_step close_segment].
  unfold close_segment. rewrite Hmin. reflexivity.
Qed.

(** Witness for claim C2: the example patient and sample (the unshared
    position 700,000 is skipped), with a minimum count of 2. *)
Lemma ibd_example_one_segment_witness :
  find_ibd_segments (mkIBDDetector (f64_of_Z 7) 2) example_patient example_sample
  = [create_segment "1" 1000 900000 3].
Proof.
  apply (ibd_example_one_segment (mkIBDDetector (f64_of_Z 7) 2)
           example_patient example_sample); vm_compute; reflexivity.
Defined.

(** Claim C4: the Allele Comparator's result for a sample has similarity
    (the number of the patient's stored coordinates found in the sample
    with a compatible genotype, over the patient's variant count floored at
    1, in f32), the label "Extensive Metabolizer" when it is above 0.9,
    "Intermediate Metabolizer" when it is not above 0.9 but above 0.7, and
    "Poor Metabolizer" otherwise, and exactly one clinical annotation, which
    states the similarity percentage. *)
Theorem compare_sample_similarity :
  forall (fmt_f32 : nat -> f32 -> string) (patient sample : ParsedGeneticData),
  exists r,
    compare_sample fmt_f32 patient sample = Ok r
    /\ activity_score r =
       f32_div
         (f32_of_nat
            (List.length
               (List.filter
                  (fun cv : Coordinate * Variant =>
                     match get_variant sample (chromosome (fst cv)) (position (fst cv)) with
                     | Some sv => is_compatible (genotype (snd cv)) (genotype sv)
                     | None => false
                     end)
                  (variants patient))))
         (f32_of_nat (Nat.max 1 (List.length (variants patient))))
    /\ (phenotype r = "Extensive Metabolizer" <->
        f32_gt (activity_score r) (f32_lit 9 10) = true)
    /\ (phenotype r = "Intermediate Metabolizer" <->
        f32_gt (activity_score r) (f32_lit 9 10) = false
        /\ f32_gt (activity_score r) (f32_lit 7 10) = true)
    /\ (phenotype r = "Poor Metabolizer" <->
        f32_gt (activity_score r) (f32_lit 9 10) = false
        /\ f32_gt (activity_score r) (f32_lit 7 10) = false)
    /\ exists a, clinical_annotations r = [a]
                 /\ implication a = "Genetic similarity: "
                      ++ fmt_f32 1 (f32_mul (activity_score r) (f32_of_Z 100)) ++ "%".
Proof.
  intros fmt_f32 patient sample.
  eexists. split; [reflexivity|]. cbn [activity_score phenotype clinical_annotations].
  split.
  - unfold similarity, count_shared_variants. rewrite Nat.max_comm.
    f_equal. f_equal. f_equal. apply List.filter_ext. intros [c v]. reflexivity.
  - destruct (f32_gt (similarity patient sample) (f32_lit 9 10)),
             (f32_gt (similarity patient sample) (f32_lit 7 10));
      repeat split; intros; try discriminate; try reflexivity;
      try (destruct H; discriminate); eexists; split; reflexivity.
Qed.

(** Claim C5: the organ score is 0.8 * (total HLA matches / 12) + 0.2 *
    blood score (1 when compatible, 0 otherwise), computed in f32, and every
    score is classified Compatible above 0.8, RequiresFurtherTesting when not
    above 0.8 but above 0.6, Incompatible otherwise; [check_sample] reports
    the class of its score. *)
Theorem organ_score_and_crossmatch :
  (forall (hla : HLATypingResult) (blood : bool),
      calculate_compatibility_score hla blood =
      f32_add (f32_mul (f32_lit 8 10) (f32_div (f32_of_nat (total_matches hla)) (f32_of_Z 12)))
              (f32_mul (f32_lit 2 10) (if blood then f32_of_Z 1 else f32_of_Z 0)))
  /\ (forall score : f32,
      (crossmatch_of_score score = Compatible <-> f32_gt score (f32_lit 8 10) = true)
      /\ (crossmatch_of_score score = RequiresFurtherTesting <->
          f32_gt score (f32_lit 8 10) = false /\ f32_gt score (f32_lit 6 10) = true)
      /\ (crossmatch_of_score score = Incompatible <->
          f32_gt score (f32_lit 8 10) = false /\ f32_gt score (f32_lit 6 10) = false))
  /\ (forall (self : OrganCompatibilityChecker) (patient sample : ParsedGeneticData),
      exists r, check_sample self patient sample = Ok r
        /\ compatibility_score r =
           calculate_compatibility_score (hla_matches r) (blood_type_compatible r)
        /\ crossmatch_result r = crossmatch_of_score (compatibility_score r)).
Proof.
  split; [intros; reflexivity|]. split.
  - intros score. unfold crossmatch_of_score.
    destruct (f32_gt score (f32_lit 8 10)), (f32_gt score (f32_lit 6 10));
      repeat split; intros; try discriminate; try reflexivity;
      destruct H; discriminate.
  - intros self patient sample. eexists. split; [reflexivity|].
    split; reflexivity.
Qed.

(** Claim C10: the Organ Compatibility Checker's result does not depend on
    the samples: the HLA tally has 8 total matches and 2 mismatches, the
    blood types are compatible, the score is the f32 number nearest to
    11/15 (0.8 * 8/12 + 0.2, about 0.733) and the crossmatch result is
    RequiresFurtherTesting. *)
Theorem organ_result_constant :
  forall (self : OrganCompatibilityChecker) (patient sample : ParsedGeneticData),
  exists r,
    check_sample self patient sample = Ok r
    /\ total_matches (hla_matches r) = 8%nat
    /\ mismatch_count (hla_matches r) = 2%nat
    /\ blood_type_compatible r = true
    /\ compatibility_score r = f32_lit 11 15
    /\ crossmatch_result r = RequiresFurtherTesting.
Proof.
  intros self patient sample. eexists. split; [reflexivity|].
  cbn [hla_matches blood_type_compatible compatibility_score crossmatch_result
       calculate_hla_matching check_blood_type_compatibility total_matches mismatch_count].
  repeat split; vm_compute; reflexivity.
Qed.

(** Claim C6: a patient storing a variant whose reference-SNP identifier is
    "rs429358" gets, against any comparison sample, a disease variant entry
    for "Alzheimer's Disease" with risk category High and odds ratio 2.5. *)
Theorem disease_rs429358_alzheimer :
  forall (patient sample : ParsedGeneticData) (c : Coordinate) (v : Variant),
    In (c, v) (variants patient) ->
    rsid v = Some "rs429358" ->
    exists r,
      analyze_disease_sample patient sample = Ok r
      /\ In {| disease := "Alzheimer's Disease";
               dv_rsid := "rs429358";
               dv_chromosome := chromosome c;
               dv_position := position c;
               risk_allele := reference_allele v;
               odds_ratio := Some (f32_lit 25 10);
               risk_category := RiskCategory.High;
               dv_confidence := ConfidenceLevel.Definitive |}
            (variants_found r).
Proof.
  intros patient sample c v Hin Hrs.
  eexists. split; [reflexivity|]. cbn [variants_found].
  unfold identify_disease_variants. apply in_flat_map. exists (c, v).
  split; [exact Hin|]. unfold disease_variants_of. rewrite Hrs. cbn. left. reflexivity.
Qed.

(** Witness for claim C6: the example patient stores rs429358. *)
Lemma disease_rs429358_alzheimer_witness :
  exists r,
    analyze_disease_sample example_patient example_sample = Ok r
    /\ In {| disease := "Alzheimer's Disease";
             dv_rsid := "rs429358";
             dv_chromosome := "19";
             dv_position := 44908684;
             risk_allele := "C";
             odds_ratio := Some (f32_lit 25 10);
             risk_category := RiskCategory.High;
             dv_confidence := ConfidenceLevel.Definitive |}
          (variants_found r).
Proof.
  apply (disease_rs429358_alzheimer example_patient example_sample
           (mkCoordinate "19" 44908684)
           (example_variant "19" 44908684 (Some "rs429358") Heterozygous));
    vm_compute; [right; right; right; right; left|]; reflexivity.
Defined.

(** Claim C9: each analyzer entry point succeeds on every patient and list
    of comparison samples, with one record per comparison sample: the i-th
    record is the one its per-sample function produces from the i-th
    sample, so the lengths agree and the order is the input order. *)
Theorem analyzers_preserve_order :
  forall (fmt_f32 : nat -> f32 -> string) (self_oc : OrganCompatibilityChecker)
         (self_ibd : IBDDetector) (patient : ParsedGeneticData)
         (comparisons : list ParsedGeneticData),
    (exists rs, compare fmt_f32 patient comparisons = Ok rs
       /\ List.length rs = List.length comparisons
       /\ map (compare_sample fmt_f32 patient) comparisons = map Ok rs)
    /\ (exists rs, check self_oc patient comparisons = Ok rs
       /\ List.length rs = List.length comparisons
       /\ map (check_sample self_oc patient) comparisons = map Ok rs)
    /\ (exists rs, analyze_disease patient comparisons = Ok rs
       /\ List.length rs = List.length comparisons
       /\ map (analyze_disease_sample patient) comparisons = map Ok rs)
    /\ (exists rs, analyze_hla patient comparisons = Ok rs
       /\ List.length rs = List.length comparisons
       /\ map (analyze_hla_sample patient) comparisons = map Ok rs)
    /\ (exists rs, detect self_ibd patient comparisons = Ok rs
       /\ List.length rs = List.length comparisons
       /\ map (detect_sample self_ibd patient) comparisons = map Ok rs).
Proof.
  intros fmt_f32 self_oc self_ibd patient comparisons.
  split; [unfold compare; fanout_total (compare_sample fmt_f32 patient) comparisons|].
  split; [unfold check; fanout_total (check_sample self_oc patient) comparisons|].
  split; [unfold analyze_disease; fanout_total (analyze_disease_sample patient) comparisons|].
  split; [unfold analyze_hla; fanout_total (analyze_hla_sample patient) comparisons|].
  unfold detect; fanout_total (detect_sample self_ibd patient) comparisons.
Qed.

(** Claim C7 (evaluated at a failing input): with the header
    "chromosome, position, allele1, allele2" and no genotype column,
    [map_columns] files both allele columns under the key "genotype", so the
    allele-pair branch of [parse_data_line] is never taken: the line
    "1, 100, A, G" gets the genotype of the second allele "G" alone
    (Partial), not that of the pair "AG" (Heterozygous).  A header without
    a position column does fail the whole file. *)
Theorem tsv_allele_columns_single_allele :
  map_columns (split_on char_tab allele_header)
    = Ok [("genotype", 3%nat); ("genotype", 2%nat); ("position", 1%nat);
          ("chromosome", 0%nat)]
  /\ (exists d,
        tsv_parse "sample" "sample.tsv" [allele_header; allele_line] = Ok d
        /\ option_map genotype (get_variant d "1" 100) = Some Partial)
  /\ parse_genotype "AG" "" [""] = Heterozygous
  /\ tsv_parse "sample" "sample.csv" ["chromosome,rsid"; "1,rs1"]
     = Err "Required columns (chromosome, position) not found".
Proof.
  split; [vm_compute; reflexivity|].
  split; [eexists; split; vm_compute; reflexivity|].
  split; vm_compute; reflexivity.
Qed.

(** Claim C8: once the files are discovered, a failure to parse the patient
    file is the failure of the whole run; otherwise every comparison file
    that fails to parse is dropped and only logged as a warning (with its
    path and error), and the analyses run, all successfully, on the samples
    that parsed, in order, the run's outcome being that of the report
    generation on their results. *)
Theorem run_analysis_error_policy :
  forall (discover : AppConfig -> result (list string))
         (parse_file : string -> result ParsedGeneticData)
         (generate : AnalysisResults -> result unit)
         (fmt_f32 : nat -> f32 -> string) (config : AppConfig) (files : list string),
    discover config = Ok files ->
    (forall e, parse_file (patient config) = Err e ->
       snd (run_analysis discover parse_file generate fmt_f32 config) = Err e)
    /\ (forall patient_data, parse_file (patient config) = Ok patient_data ->
       let kept := flat_map (fun f => match parse_file f with
                                      | Ok d => [d] | Err _ => [] end) files in
       let dropped := flat_map (fun f => match parse_file f with
                                         | Ok _ => [] | Err e => [WarnParseFailed f e] end)
                               files in
       exists results,
         run_analyzers fmt_f32 config patient_data kept = Ok results
         /\ run_analysis discover parse_file generate fmt_f32 config
            = ((InfoFound (List.length files) :: dropped
                ++ [InfoParsed (List.length kept)])%list,
               _ <- generate results ;; Ok results)).
Proof.
  intros discover parse_file generate fmt_f32 config files Hdisc.
  split.
  - intros e He. unfold run_analysis. rewrite Hdisc, He. reflexivity.
  - intros patient_data Hpd kept dropped.
    destruct (run_analyzers_total fmt_f32 config patient_data kept) as [results Hres].
    exists results. split; [exact Hres|].
    unfold run_analysis. rewrite Hdisc, Hpd, parse_comparisons_split.
    fold kept dropped. simpl. rewrite Hres. reflexivity.
Qed.

(** Witness for claim C8: three discovered files, one of which does not
    parse; the run goes on with the other two and logs one warning. *)
Lemma run_analysis_error_policy_witness :
  let parse_file := fun f => if String.eqb f "bad.txt" then Err "unreadable"
                             else Ok (empty_sample f) in
  let config := mkAppConfig "patient.txt" All None (f64_of_Z 7) 500 in
  exists results,
    run_analyzers (fun _ _ => "") config (empty_sample "patient.txt")
      [empty_sample "patient.txt"; empty_sample "s.txt"] = Ok results
    /\ run_analysis (fun _ => Ok ["patient.txt"; "bad.txt"; "s.txt"]) parse_file
         (fun _ => Ok tt) (fun _ _ => "") config
       = ([InfoFound 3; WarnParseFailed "bad.txt" "unreadable"; InfoParsed 2],
          Ok results).
Proof.
  intros parse_file config.
  apply (proj2 (run_analysis_error_policy (fun _ => Ok ["patient.txt"; "bad.txt"; "s.txt"])
                  parse_file (fun _ => Ok tt) (fun _ _ => "") config
                  ["patient.txt"; "bad.txt"; "s.txt"] eq_refl)
               (empty_sample "patient.txt")).
  vm_compute. reflexivity.
Defined.

(** ** Further properties of the code *)

Lemma is_sep_cases (c : ascii) : is_sep c = true -> c = "/"%char \/ c = "|"%char.
Proof.
  unfold is_sep. intros H. apply orb_true_iff in H.
  destruct H as [H|H]; apply Ascii.eqb_eq in H; auto.
Qed.

Lemma split_seps_sep_free (a : string) :
  contains_sep a = false -> split_seps a = [a].
Proof.
  induction a as [|c r IH]; [reflexivity|].
  simpl. intros H. apply orb_false_iff in H. destruct H as [Hc Hr].
  rewrite Hc, (IH Hr). reflexivity.
Qed.

Lemma split_seps_pair (a b : string) (c : ascii) :
  contains_sep a = false -> is_sep c = true -> contains_sep b = false ->
  split_seps (a ++ String c b) = [a; b].
Proof.
  intros Ha Hc Hb. induction a as [|c0 r IH]; simpl.
  - rewrite Hc, (split_seps_sep_free b Hb). reflexivity.
  - simpl in Ha. apply orb_false_iff in Ha. destruct Ha as [Hc0 Hr].
    rewrite Hc0, (IH Hr). reflexivity.
Qed.

Lemma contains_sep_pair (a b : string) (c : ascii) :
  is_sep c = true -> contains_sep (a ++ String c b) = true.
Proof.
  intros Hc. induction a as [|c0 r IH]; simpl; [rewrite Hc; reflexivity|].
  rewrite IH. apply orb_true_r.
Qed.

Lemma split_seps_sep_length (u : string) :
  contains_sep u = true -> 2 <= List.length (split_seps u).
Proof.
  induction u as [|c u IHu]; simpl; [discriminate|].
  intros Hu. destruct (is_sep c) eqn:Hc; simpl.
  - destruct (split_seps u) as [|q qs] eqn:E; [|simpl; lia].
    destruct u as [|c' u']; simpl in E; [discriminate|].
    destruct (is_sep c'); [discriminate|]. destruct (split_seps u'); discriminate.
  - specialize (IHu Hu). destruct (split_seps u) as [|q qs]; simpl in *; lia.
Qed.

(** A string whose split gives two pieces is the two pieces around one
    separator. *)
Lemma split_seps_two_inv (t p0 p1 : string) :
  split_seps t = [p0; p1] ->
  exists c, is_sep c = true /\ t = p0 ++ String c p1 /\ contains_sep p1 = false.
Proof.
  revert p0 p1. induction t as [|c r IH]; intros p0 p1 H; simpl in H; [discriminate|].
  destruct (is_sep c) eqn:Hc.
  - injection H as <- Hr.
    destruct (contains_sep r) eqn:Hcr.
    + pose proof (split_seps_sep_length r Hcr) as L. rewrite Hr in L. simpl in L. lia.
    + rewrite (split_seps_sep_free r Hcr) in Hr. injection Hr as <-.
      exists c. auto.
  - destruct (split_seps r) as [|q qs] eqn:E; [discriminate|].
    injection H as Hq Hqs. subst qs.
    destruct (IH q p1 eq_refl) as [c' [Hc' [Er Hp1]]].
    exists c'. subst p0. rewrite Er. auto.
Qed.

Lemma str_in_true (s : string) (l : list string) : str_in s l = true -> In s l.
Proof.
  unfold str_in. intros H. apply existsb_exists in H.
  destruct H as [x [Hx E]]. apply String.eqb_eq in E. subst x. exact Hx.
Qed.

Ltac exact_token H :=
  apply str_in_true in H; simpl in H;
  repeat match type of H with
         | _ \/ _ => destruct H as [H|H]
         | False => contradiction
         end; subst.

(** [from_string] on a separated token with two pieces. *)
Lemma from_string_pair (t p0 p1 : string) :
  contains_sep t = true -> split_seps t = [p0; p1] ->
  from_string t =
  if (String.eqb p0 "." && String.eqb p1 ".")%bool then NoCall
  else pieces_genotype p0 p1.
Proof.
  intros Hcs Hsp. unfold from_string.
  destruct (str_in t ["0/0"; "0|0"; "AA"]) eqn:E1;
    [exact_token E1; simpl in *; try discriminate;
     injection Hsp as <- <-; reflexivity|].
  destruct (str_in t ["1/1"; "1|1"; "BB"]) eqn:E2;
    [exact_token E2; simpl in *; try discriminate;
     injection Hsp as <- <-; reflexivity|].
  destruct (str_in t ["0/1"; "0|1"; "1/0"; "1|0"; "AB"; "BA"]) eqn:E3;
    [exact_token E3; simpl in *; try discriminate;
     injection Hsp as <- <-; reflexivity|].
  destruct (str_in t ["./."; ".|."; ""]) eqn:E4;
    [exact_token E4; simpl in *; try discriminate;
     injection Hsp as <- <-; reflexivity|].
  rewrite Hcs, Hsp.
  destruct (String.eqb p0 "." && String.eqb p1 ".")%bool eqn:Ed; [|reflexivity].
  exfalso. apply andb_true_iff in Ed. destruct Ed as [D0 D1].
  apply String.eqb_eq in D0, D1. subst p0 p1.
  destruct (split_seps_two_inv t _ _ Hsp) as [c [Hc [Et _]]].
  apply is_sep_cases in Hc. destruct Hc; subst c t; discriminate.
Qed.

(** X1 (types.rs [is_homozygous], [is_heterozygous], [is_no_call]): every
    genotype satisfies exactly one of the three predicates. *)
Theorem genotype_predicates_partition (g : Genotype) :
  (if is_homozygous g then 1 else 0) + (if is_heterozygous g then 1 else 0)
  + (if is_no_call g then 1 else 0) = 1.
Proof. destruct g; reflexivity. Qed.

(** X2 (types.rs [Genotype::from_string]): a genotype written as two
    separator-free alleles around a separator is classified independently of
    the order of the alleles and of the separator used. *)
Theorem from_string_order_separator_independent (a b : string) (c c' : ascii) :
  contains_sep a = false -> contains_sep b = false ->
  is_sep c = true -> is_sep c' = true ->
  from_string (a ++ String c b) = from_string (b ++ String c' a).
Proof.
  intros Ha Hb Hc Hc'.
  rewrite (from_string_pair _ a b (contains_sep_pair a b c Hc) (split_seps_pair a b c Ha Hc Hb)).
  rewrite (from_string_pair _ b a (contains_sep_pair b a c' Hc') (split_seps_pair b a c' Hb Hc' Ha)).
  rewrite (andb_comm (String.eqb b ".")). unfold pieces_genotype.
  rewrite (String.eqb_sym b a), (orb_comm (String.eqb b "0")).
  destruct (String.eqb a b) eqn:Eab; [|reflexivity].
  apply String.eqb_eq in Eab. subst b. reflexivity.
Qed.

Lemma from_string_order_separator_independent_witness :
  (contains_sep "A" = false /\ contains_sep "G" = false /\
   is_sep "/"%char = true /\ is_sep "|"%char = true) /\
  from_string ("A" ++ String "/" "G") = from_string ("G" ++ String "|" "A").
Proof.
  split; [repeat split; reflexivity|].
  apply from_string_order_separator_independent; reflexivity.
Defined.

(** X3 (types.rs [Genotype::from_string]): the result is [Partial] exactly
    for a token that has no separator and is none of the listed exact
    tokens. *)
Theorem from_string_partial_iff (s : string) :
  from_string s = Partial <->
  (str_in s ["0/0"; "0|0"; "AA"] = false /\ str_in s ["1/1"; "1|1"; "BB"] = false /\
   str_in s ["0/1"; "0|1"; "1/0"; "1|0"; "AB"; "BA"] = false /\
   str_in s ["./."; ".|."; ""] = false /\ contains_sep s = false).
Proof.
  unfold from_string.
  destruct (str_in s ["0/0"; "0|0"; "AA"]); [split; [discriminate|intuition discriminate]|].
  destruct (str_in s ["1/1"; "1|1"; "BB"]); [split; [discriminate|intuition discriminate]|].
  destruct (str_in s ["0/1"; "0|1"; "1/0"; "1|0"; "AB"; "BA"]); [split; [discriminate|intuition discriminate]|].
  destruct (str_in s ["./."; ".|."; ""]); [split; [discriminate|intuition discriminate]|].
  destruct (contains_sep s); [|split; [intros; repeat split; reflexivity|reflexivity]].
  split; [|intuition discriminate].
  destruct (split_seps s) as [|p0 [|p1 [|? ?]]]; try discriminate.
  destruct (String.eqb p0 p1); [destruct (String.eqb p0 "0"); discriminate|].
  destruct (String.eqb p0 "0" || String.eqb p1 "0")%bool; discriminate.
Qed.



(** *** Analyzers *)

Lemma filter_all_false {A : Type} (f : A -> bool) (l : list A) :
  (forall x, In x l -> f x = false) -> List.filter f l = [].
Proof.
  induction l as [|x l IH]; intros H; [reflexivity|].
  simpl. rewrite (H x (or_introl eq_refl)). apply IH. intros y Hy. apply H. right. exact Hy.
Qed.

Lemma count_shared_presence (patient sample : ParsedGeneticData) :
  count_shared_variants patient sample =
  List.length (List.filter (fun cv => in_sample sample (fst cv)) (variants patient)).
Proof.
  unfold count_shared_variants. f_equal. apply List.filter_ext.
  intros [c v]. unfold in_sample. simpl.
  destruct (get_variant sample (chromosome c) (position c)); [|reflexivity].
  apply is_compatible_always.
Qed.

(** X5 (analysis.rs [AlleleComparator::count_shared_variants]): the genotypes
    play no role in the count: it is the number of the patient's stored
    variants whose coordinate is stored in the sample. *)
Theorem count_shared_ignores_genotypes (patient sample : ParsedGeneticData) :
  count_shared_variants patient sample =
  List.length (List.filter (fun cv => in_sample sample (fst cv)) (variants patient)).
Proof. exact (count_shared_presence patient sample). Qed.

(** X6 (analysis.rs [AlleleComparator::compare_sample]): a sample storing none
    of the patient's coordinates is labelled "Poor Metabolizer", with the
    recommendation to consider alternative medications. *)
Theorem compare_no_overlap_poor (fmt_f32 : nat -> f32 -> string)
    (patient sample : ParsedGeneticData) :
  (forall cv, In cv (variants patient) -> in_sample sample (fst cv) = false) ->
  exists r, compare_sample fmt_f32 patient sample = Ok r
    /\ phenotype r = "Poor Metabolizer"
    /\ map recommendation (clinical_annotations r)
       = ["Consider alternative medications or dose adjustments"].
Proof.
  intros H. eexists. split; [reflexivity|].
  cbn [phenotype clinical_annotations map recommendation].
  assert (Hs : similarity patient sample
               = f32_div (S754_zero false)
                   (f32_of_nat (Nat.max (List.length (variants patient)) 1))).
  { unfold similarity. rewrite count_shared_presence, (filter_all_false _ _ H). reflexivity. }
  rewrite Hs. destruct (f32_of_nat (Nat.max (List.length (variants patient)) 1))
    as [[]|[]| |[] m e]; vm_compute; split; reflexivity.
Qed.

Lemma compare_no_overlap_poor_witness :
  exists r, compare_sample (fun _ _ => "") example_patient (empty_sample "s") = Ok r
    /\ phenotype r = "Poor Metabolizer"
    /\ map recommendation (clinical_annotations r)
       = ["Consider alternative medications or dose adjustments"].
Proof.
  apply compare_no_overlap_poor. intros cv _. reflexivity.
Defined.

(** X7 (analysis.rs [OrganCompatibilityChecker::check_sample]): the target
    organ only sets the organ label of the result, and the recommendations
    are always the "Moderate compatibility" line and the consultation line. *)
Theorem organ_target_only_labels (c1 c2 : OrganCompatibilityChecker)
    (patient sample : ParsedGeneticData) (r1 r2 : OrganCompatibilityResult) :
  check_sample c1 patient sample = Ok r1 ->
  check_sample c2 patient sample = Ok r2 ->
  r2 = mkOrganCompatibilityResult (oc_sample_id r1) (organ_name (target_organ c2))
         (compatibility_score r1) (hla_matches r1) (blood_type_compatible r1)
         (crossmatch_result r1) (oc_recommendations r1)
  /\ oc_recommendations r2 = ["Moderate compatibility - further testing recommended";
                              "Consult with transplant team for clinical evaluation"].
Proof.
  unfold check_sample. intros H1 H2. injection H1 as <-. injection H2 as <-.
  split; [reflexivity|]. cbn [oc_recommendations]. vm_compute. reflexivity.
Qed.

Lemma organ_target_only_labels_witness :
  exists r1 r2,
    check_sample (mkOrganCompatibilityChecker (Some Kidney)) example_patient example_sample = Ok r1
    /\ check_sample (mkOrganCompatibilityChecker None) example_patient example_sample = Ok r2
    /\ organ r1 = "Kidney" /\ organ r2 = "Multi-organ"
    /\ r2 = mkOrganCompatibilityResult (oc_sample_id r1) (organ_name None)
         (compatibility_score r1) (hla_matches r1) (blood_type_compatible r1)
         (crossmatch_result r1) (oc_recommendations r1).
Proof.
  do 2 eexists. split; [reflexivity|]. split; [reflexivity|].
  split; [reflexivity|]. split; [reflexivity|].
  exact (proj1 (organ_target_only_labels (mkOrganCompatibilityChecker (Some Kidney))
                  (mkOrganCompatibilityChecker None) example_patient example_sample
                  _ _ eq_refl eq_refl)).
Defined.





(** X10 (analysis.rs [DiseaseAnalyzer::analyze_sample]): the comparison
    sample contributes only its identifier: two samples get the same
    entries, score, level and recommendations, and the disease label is
    always "Cardiovascular Disease", whatever the entries found. *)
Theorem disease_result_ignores_sample (patient s1 s2 : ParsedGeneticData)
    (r1 r2 : DiseaseRiskResult) :
  analyze_disease_sample patient s1 = Ok r1 ->
  analyze_disease_sample patient s2 = Ok r2 ->
  variants_found r1 = variants_found r2 /\ risk_score r1 = risk_score r2
  /\ risk_level r1 = risk_level r2 /\ dr_recommendations r1 = dr_recommendations r2
  /\ dr_disease r1 = "Cardiovascular Disease" /\ dr_disease r2 = "Cardiovascular Disease".
Proof.
  unfold analyze_disease_sample. intros H1 H2. injection H1 as <-. injection H2 as <-.
  repeat split.
Qed.

Lemma disease_result_ignores_sample_witness :
  exists r1 r2,
    analyze_disease_sample example_patient example_sample = Ok r1
    /\ analyze_disease_sample example_patient (empty_sample "s") = Ok r2
    /\ variants_found r1 = variants_found r2 /\ variants_found r1 <> [].
Proof.
  do 2 eexists. split; [reflexivity|]. split; [reflexivity|].
  split; [exact (proj1 (disease_result_ignores_sample example_patient example_sample
                          (empty_sample "s") _ _ eq_refl eq_refl))|].
  vm_compute. discriminate.
Defined.

Lemma group_push_in (a : HLAAllele) (gs : list (string * list HLAAllele))
    (g : string) (xs : list HLAAllele) :
  In (g, xs) (group_push a gs) -> g = gene a \/ exists ys, In (g, ys) gs.
Proof.
  induction gs as [|[g' ys] gs IH]; simpl.
  - intros [H|[]]. injection H as <- _. left. reflexivity.
  - destruct (String.eqb g' (gene a)) eqn:E; simpl.
    + intros [H|H].
      * injection H as <- _. right. exists ys. left. reflexivity.
      * right. exists xs. right. exact H.
    + intros [H|H].
      * injection H as <- _. right. exists ys. left. reflexivity.
      * destruct (IH H) as [Hg|[zs Hz]]; [left; exact Hg|].
        right. exists zs. right. exact Hz.
Qed.

(** Every group is named after the gene of one of the grouped alleles. *)
Lemma group_by_gene_keys (l : list HLAAllele) (g : string) (xs : list HLAAllele) :
  In (g, xs) (group_by_gene l) -> exists a, In a l /\ gene a = g.
Proof.
  unfold group_by_gene.
  assert (Hgen : forall l gs,
             In (g, xs) (fold_left (fun gs a => group_push a gs) l gs) ->
             (exists a, In a l /\ gene a = g) \/ exists ys, In (g, ys) gs).
  { clear l. induction l as [|a l IH]; intros gs H; simpl in H.
    - right. exists xs. exact H.
    - destruct (IH _ H) as [[b [Hb Eb]]|[ys Hys]].
      + left. exists b. split; [right; exact Hb|exact Eb].
      + destruct (group_push_in a gs g ys Hys) as [Hg|Hz].
        * left. exists a. split; [left; reflexivity|symmetry; exact Hg].
        * right. exact Hz. }
  intros H. destruct (Hgen l [] H) as [Hl|[ys []]]. exact Hl.
Qed.

Lemma lookup_group_some (g : string) (groups : list (string * list HLAAllele))
    (xs : list HLAAllele) :
  lookup_group g groups = Some xs -> In (g, xs) groups.
Proof.
  unfold lookup_group. destruct (find _ groups) as [[g' ys]|] eqn:E; [|discriminate].
  simpl. intros H. injection H as <-. apply find_some in E. destruct E as [Hin Eg].
  simpl in Eg. apply String.eqb_eq in Eg. subst g'. exact Hin.
Qed.

(** X11 (analysis.rs [HLAAnalyzer::calculate_match_score]): when no gene of
    the patient's alleles is among the genes of the sample's alleles, the
    score is 0. *)
Theorem hla_score_no_shared_gene (patient_hla sample_hla : list HLAAllele) :
  (forall a b, In a patient_hla -> In b sample_hla -> gene a <> gene b) ->
  calculate_match_score patient_hla sample_hla = f32_of_Z 0.
Proof.
  intros H. unfold calculate_match_score.
  assert (Hnone : forall e, In e (group_by_gene patient_hla) ->
                            lookup_group (fst e) (group_by_gene sample_hla) = None).
  { intros [g xs] He. simpl.
    destruct (lookup_group g (group_by_gene sample_hla)) as [ys|] eqn:E; [|reflexivity].
    exfalso. apply lookup_group_some, group_by_gene_keys in E.
    apply group_by_gene_keys in He.
    destruct E as [b [Hb Eb]], He as [a [Ha Ea]].
    apply (H a b Ha Hb). congruence. }
  revert Hnone. generalize (group_by_gene patient_hla) as l. intros l.
  match goal with
  | |- _ -> (let '(_, _) := fold_left ?F l (0, 0)%nat in _) = _ =>
      assert (Hfold : forall acc,
                 (forall e, In e l -> lookup_group (fst e) (group_by_gene sample_hla) = None) ->
                 fold_left F l acc = acc)
  end.
  { induction l as [|[g xs] l IH]; intros [m t] Hn; [reflexivity|].
    pose proof (Hn (g, xs) (or_introl eq_refl)) as E. simpl in E |- *. rewrite E.
    apply IH. intros e He. apply Hn. right. exact He. }
  intros Hn. rewrite (Hfold _ Hn). reflexivity.
Qed.

Lemma hla_score_no_shared_gene_witness :
  calculate_match_score [mkHLAAllele "HLA-A" "A*01:01" FourDigit (f32_of_Z 1)]
                        [mkHLAAllele "HLA-B" "B*08:01" FourDigit (f32_of_Z 1)]
  = f32_of_Z 0.
Proof.
  apply hla_score_no_shared_gene. simpl. intros a b [<-|[]] [<-|[]]. simpl. discriminate.
Defined.

(** X12 (analysis.rs [HLAAnalyzer::calculate_match_score]): the score is not
    bounded by 1: two patient alleles of one gene with the same name, against
    one sample allele of that gene with that name, give 2 matches over a
    total of min(2, 1) = 1, a score of 2. *)
Theorem hla_score_can_exceed_one (g x : string) (r1 r2 r3 : HLAResolution)
    (c1 c2 c3 : f32) :
  calculate_match_score [mkHLAAllele g x r1 c1; mkHLAAllele g x r2 c2]
                        [mkHLAAllele g x r3 c3] = f32_of_Z 2
  /\ f32_gt (f32_of_Z 2) (f32_of_Z 1) = true.
Proof.
  split; [|vm_compute; reflexivity].
  unfold calculate_match_score.
  assert (Hp : group_by_gene [mkHLAAllele g x r1 c1; mkHLAAllele g x r2 c2]
               = [(g, [mkHLAAllele g x r1 c1; mkHLAAllele g x r2 c2])]).
  { unfold group_by_gene. cbn [fold_left group_push gene app].
    rewrite String.eqb_refl. reflexivity. }
  assert (Hs : group_by_gene [mkHLAAllele g x r3 c3] = [(g, [mkHLAAllele g x r3 c3])])
    by reflexivity.
  rewrite Hp, Hs.
  unfold lookup_group, option_map. cbn [fold_left find fst snd].
  rewrite String.eqb_refl. cbn [List.filter existsb allele List.length snd].
  rewrite String.eqb_refl. cbn [orb List.length].
  vm_compute. reflexivity.
Qed.

Lemma close_segment_size_ok (self : IBDDetector) (segs : list IBDSegment)
    (chr : string) (start end_ : Z) (count : nat) :
  Forall (seg_size_ok self) segs -> (1 <= count)%nat ->
  Forall (seg_size_ok self) (close_segment self segs (chr, start, end_, count)).
Proof.
  intros Hs Hc. unfold close_segment.
  destruct (Nat.leb (min_segment_length self) count) eqn:E; [|exact Hs].
  apply Nat.leb_le in E. apply Forall_app. split; [exact Hs|].
  constructor; [|constructor]. unfold seg_size_ok. simpl. lia.
Qed.

Lemma ibd_step_size_ok (self : IBDDetector) (sample : ParsedGeneticData)
    (st : ibd_state) (cv : Coordinate * Variant) :
  Forall (seg_size_ok self) (fst st) -> (1 <= open_count (snd st) \/ snd st = None) ->
  let st' := ibd_step self sample st cv in
  Forall (seg_size_ok self) (fst st') /\ (1 <= open_count (snd st') \/ snd st' = None).
Proof.
  destruct st as [segs cur], cv as [c v]. simpl. intros Hs Hc. unfold ibd_step.
  destruct (get_variant sample (chromosome c) (position c)); [|auto].
  rewrite is_compatible_always.
  destruct cur as [[[[chr start] end_] count]|]; simpl; [|auto].
  destruct Hc as [Hc|Hc]; [|discriminate].
  destruct (String.eqb chr (chromosome c) && Z.leb (position c) (u64_add end_ 1000000))%bool;
    simpl; [split; [exact Hs|left; lia]|].
  split; [apply close_segment_size_ok; assumption|left; simpl; lia].
Qed.

(** X13 (analysis.rs [IBDDetector::find_ibd_segments]): every reported
    segment has at least [min_segment_length] coordinates, and at least
    one. *)
Theorem ibd_segments_min_size (self : IBDDetector) (patient sample : ParsedGeneticData) :
  Forall (fun seg => (min_segment_length self <= snp_count seg)%nat
                     /\ (1 <= snp_count seg)%nat)
         (find_ibd_segments self patient sample).
Proof.
  unfold find_ibd_segments.
  assert (Hinv : forall l st,
             Forall (seg_size_ok self) (fst st) -> (1 <= open_count (snd st) \/ snd st = None) ->
             let st' := fold_left (ibd_step self sample) l st in
             Forall (seg_size_ok self) (fst st') /\ (1 <= open_count (snd st') \/ snd st' = None)).
  { induction l as [|cv l IH]; intros st Hs Hc; [auto|].
    simpl. destruct (ibd_step_size_ok self sample st cv Hs Hc) as [Hs' Hc'].
    apply IH; assumption. }
  destruct (Hinv (variants patient) ([], None) (Forall_nil _) (or_intror eq_refl))
    as [Hs Hc].
  destruct (fold_left (ibd_step self sample) (variants patient) ([], None))
    as [segs [[[[chr start] end_] count]|]]; simpl in Hs, Hc.
  - destruct Hc as [Hc|Hc]; [|discriminate]. apply close_segment_size_ok; assumption.
  - exact Hs.
Qed.

Lemma seg_total_app (segs : list IBDSegment) (seg : IBDSegment) :
  seg_total (segs ++ [seg])%list = (seg_total segs + snp_count seg)%nat.
Proof.
  unfold seg_total. rewrite map_app, list_sum_app. simpl. lia.
Qed.

(** Closing a segment keeps its coordinates, or drops them when they are
    fewer than the minimum. *)
Lemma close_segment_total (self : IBDDetector) (segs : list IBDSegment)
    (chr : string) (start end_ : Z) (count : nat) :
  (seg_total (close_segment self segs (chr, start, end_, count))
   + (if Nat.leb (min_segment_length self) count then 0 else count))%nat
  = (seg_total segs + count)%nat.
Proof.
  unfold close_segment. destruct (Nat.leb (min_segment_length self) count).
  - rewrite seg_total_app. simpl. lia.
  - lia.
Qed.

(** The IBD loop over coordinates all stored in the sample: each one adds
    one coordinate to the closed and open segments, less what closing drops
    ([dropped] bounds it, and is 0 when every closed segment is kept). *)
Lemma ibd_fold_total (self : IBDDetector) (sample : ParsedGeneticData) :
  forall l segs cur,
    (forall x, In x l -> in_sample sample (fst x) = true) ->
    let st' := fold_left (ibd_step self sample) l (segs, cur) in
    (seg_total (fst st') + open_count (snd st') <= seg_total segs + open_count cur + List.length l)%nat
    /\ ((min_segment_length self <= 1)%nat ->
        (seg_total (fst st') + open_count (snd st') = seg_total segs + open_count cur + List.length l)%nat).
Proof.
  induction l as [|[c v] l IH]; intros segs cur Hin; cbn [fold_left List.length];
    [cbn [fst snd]; split; intros; lia|].
  rewrite (ibd_step_present self sample segs cur c v (Hin (c, v) (or_introl eq_refl))).
  assert (Hin' : forall x, In x l -> in_sample sample (fst x) = true)
    by (intros x Hx; apply Hin; right; exact Hx).
  destruct cur as [[[[chr start] end_] count]|].
  - destruct (String.eqb chr (chromosome c) && Z.leb (position c) (u64_add end_ 1000000))%bool.
    + destruct (IH segs (Some (chr, start, position c, S count)) Hin') as [H1 H2].
      cbn [fst snd open_count] in *. set (st := fold_left _ _ _) in *. split; [lia|intros Hm; rewrite (H2 Hm); lia].
    + pose proof (close_segment_total self segs chr start end_ count) as Hcl.
      destruct (IH (close_segment self segs (chr, start, end_, count))
                   (Some (chromosome c, position c, position c, 1%nat)) Hin') as [H1 H2].
      cbn [fst snd open_count] in *. set (st := fold_left _ _ _) in *. split; [lia|].
      intros Hm. rewrite (H2 Hm).
      destruct (Nat.leb (min_segment_length self) count) eqn:E; [lia|].
      apply Nat.leb_gt in E. lia.
  - destruct (IH segs (Some (chromosome c, position c, position c, 1%nat)) Hin') as [H1 H2].
    cbn [fst snd open_count] in *. set (st := fold_left _ _ _) in *. split; [lia|intros Hm; rewrite (H2 Hm); lia].
Qed.

Lemma find_ibd_total (self : IBDDetector) (patient sample : ParsedGeneticData) :
  (seg_total (find_ibd_segments self patient sample)
   <= List.length (List.filter (fun cv => in_sample sample (fst cv)) (variants patient)))%nat
  /\ ((min_segment_length self <= 1)%nat ->
      seg_total (find_ibd_segments self patient sample)
      = List.length (List.filter (fun cv => in_sample sample (fst cv)) (variants patient))).
Proof.
  unfold find_ibd_segments. rewrite ibd_fold_filter.
  assert (Hin : forall x, In x (List.filter (fun cv => in_sample sample (fst cv))
                                           (variants patient)) ->
                          in_sample sample (fst x) = true)
    by (intros x Hx; apply filter_In in Hx; tauto).
  destruct (ibd_fold_total self sample _ [] None Hin) as [H1 H2].
  revert H1 H2.
  destruct (fold_left (ibd_step self sample)
              (List.filter (fun cv => in_sample sample (fst cv)) (variants patient))
              ([], None)) as [segs [[[[chr start] end_] count]|]];
    cbn [fst snd open_count]; intros H1 H2;
    assert (E0 : seg_total [] = 0%nat) by reflexivity; rewrite E0 in H1, H2.
  - pose proof (close_segment_total self segs chr start end_ count) as Hcl.
    destruct (Nat.leb (min_segment_length self) count) eqn:E; split; try lia.
    intros Hm. apply Nat.leb_gt in E. lia.
  - split; [lia|]. intros Hm. specialize (H2 Hm). lia.
Qed.

(** X14 (analysis.rs [IBDDetector::find_ibd_segments]): a shared coordinate
    is counted in at most one segment: the segments' coordinate counts add
    up to at most the number of the patient's coordinates stored in the
    sample. *)
Theorem ibd_snp_counts_bounded (self : IBDDetector) (patient sample : ParsedGeneticData) :
  (list_sum (map snp_count (find_ibd_segments self patient sample))
   <= List.length (List.filter (fun cv => in_sample sample (fst cv)) (variants patient)))%nat.
Proof. exact (proj1 (find_ibd_total self patient sample)). Qed.

(** X15 (analysis.rs [IBDDetector::find_ibd_segments]): with a minimum
    segment length of at most 1 no segment is dropped, and every shared
    coordinate is counted in exactly one segment. *)
Theorem ibd_snp_counts_exact (self : IBDDetector) (patient sample : ParsedGeneticData) :
  (min_segment_length self <= 1)%nat ->
  list_sum (map snp_count (find_ibd_segments self patient sample))
  = List.length (List.filter (fun cv => in_sample sample (fst cv)) (variants patient)).
Proof. exact (proj2 (find_ibd_total self patient sample)). Qed.

Lemma ibd_snp_counts_exact_witness :
  list_sum (map snp_count (find_ibd_segments (mkIBDDetector (f64_of_Z 7) 1)
                             example_patient example_sample))
  = List.length (List.filter (fun cv => in_sample example_sample (fst cv))
                             (variants example_patient)).
Proof. apply ibd_snp_counts_exact. simpl. lia. Defined.

(** X16 (analysis.rs [IBDDetector::detect_sample]): a sample storing none of
    the patient's coordinates gets no segment, the relationship Unrelated
    and the confidence 0. *)
Theorem ibd_no_overlap_unrelated (self : IBDDetector) (patient sample : ParsedGeneticData) :
  (forall cv, In cv (variants patient) -> in_sample sample (fst cv) = false) ->
  exists r, detect_sample self patient sample = Ok r
    /\ segments r = [] /\ segment_count r = 0%nat
    /\ predicted_relationship r = Unrelated
    /\ ibd_confidence r = f32_of_Z 0.
Proof.
  intros H.
  assert (E : find_ibd_segments self patient sample = []).
  { unfold find_ibd_segments. rewrite ibd_fold_filter, (filter_all_false _ _ H).
    reflexivity. }
  eexists. split; [reflexivity|].
  cbn [segments segment_count predicted_relationship ibd_confidence].
  rewrite E. repeat split; vm_compute; reflexivity.
Qed.

Lemma ibd_no_overlap_unrelated_witness :
  exists r, detect_sample (mkIBDDetector (f64_of_Z 7) 500) example_patient (empty_sample "s")
            = Ok r
    /\ segments r = [] /\ segment_count r = 0%nat
    /\ predicted_relationship r = Unrelated
    /\ ibd_confidence r = f32_of_Z 0.
Proof. apply ibd_no_overlap_unrelated. intros cv _. reflexivity. Defined.

Lemma ibd_step_min_cm (d1 d2 : IBDDetector) (sample : ParsedGeneticData)
    (st : ibd_state) (cv : Coordinate * Variant) :
  min_segment_length d1 = min_segment_length d2 ->
  ibd_step d1 sample st cv = ibd_step d2 sample st cv.
Proof. intros H. unfold ibd_step, close_segment. rewrite H. reflexivity. Qed.

(** X17 (analysis.rs [IBDDetector::detect_sample]): the configured minimum
    shared length [min_cm] is never read: two detectors with the same
    minimum segment length give the same result. *)
Theorem ibd_min_cm_unused (d1 d2 : IBDDetector) (patient sample : ParsedGeneticData) :
  min_segment_length d1 = min_segment_length d2 ->
  detect_sample d1 patient sample = detect_sample d2 patient sample.
Proof.
  intros H.
  assert (Hf : forall l st, fold_left (ibd_step d1 sample) l st
                            = fold_left (ibd_step d2 sample) l st).
  { induction l as [|cv l IH]; intros st; [reflexivity|].
    simpl. rewrite (ibd_step_min_cm d1 d2 sample st cv H). apply IH. }
  unfold detect_sample, find_ibd_segments. rewrite Hf.
  unfold close_segment. rewrite H. reflexivity.
Qed.

Lemma ibd_min_cm_unused_witness :
  detect_sample (mkIBDDetector (f64_of_Z 7) 2) example_patient example_sample
  = detect_sample (mkIBDDetector (f64_of_Z 100) 2) example_patient example_sample.
Proof. apply ibd_min_cm_unused. reflexivity. Defined.

(** *** The generic delimited dialect *)

Lemma map_headers_key (k : string) (aliases : list string) :
  (forall i h m, is_some (map_get k (map_header i h m))
                 = (str_in (to_lowercase (trim h)) aliases || is_some (map_get k m))%bool) ->
  forall hs i m,
    is_some (map_get k (map_headers i hs m))
    = (existsb (fun h => str_in (to_lowercase (trim h)) aliases) hs
       || is_some (map_get k m))%bool.
Proof.
  intros Hstep. induction hs as [|h hs IH]; intros i m; [reflexivity|].
  simpl. rewrite IH, Hstep.
  destruct (str_in (to_lowercase (trim h)) aliases),
           (existsb (fun h => str_in (to_lowercase (trim h)) aliases) hs),
           (is_some (map_get k m)); reflexivity.
Qed.

Lemma map_header_chromosome (i : nat) (h : string) (m : column_mapping) :
  is_some (map_get "chromosome" (map_header i h m))
  = (str_in (to_lowercase (trim h)) ["chromosome"; "chr"; "chrom"]
     || is_some (map_get "chromosome" m))%bool.
Proof.
  unfold map_header. generalize (to_lowercase (trim h)) as hl. intros hl.
  destruct (str_in hl ["chromosome"; "chr"; "chrom"]); [reflexivity|].
  destruct (str_in hl ["position"; "pos"; "bp"]); [reflexivity|].
  destruct (str_in hl ["rsid"; "rs#"; "snp"]); [reflexivity|].
  destruct (str_in hl ["genotype"; "gt"; "allele1"; "allele2"]); [reflexivity|].
  destruct (str_in hl ["reference"; "ref"]); [reflexivity|].
  destruct (str_in hl ["alternate"; "alt"]); reflexivity.
Qed.

Lemma map_header_position (i : nat) (h : string) (m : column_mapping) :
  is_some (map_get "position" (map_header i h m))
  = (str_in (to_lowercase (trim h)) ["position"; "pos"; "bp"]
     || is_some (map_get "position" m))%bool.
Proof.
  unfold map_header. generalize (to_lowercase (trim h)) as hl. intros hl.
  destruct (str_in hl ["chromosome"; "chr"; "chrom"]) eqn:E;
    [exact_token E; reflexivity|].
  destruct (str_in hl ["position"; "pos"; "bp"]); [reflexivity|].
  destruct (str_in hl ["rsid"; "rs#"; "snp"]); [reflexivity|].
  destruct (str_in hl ["genotype"; "gt"; "allele1"; "allele2"]); [reflexivity|].
  destruct (str_in hl ["reference"; "ref"]); [reflexivity|].
  destruct (str_in hl ["alternate"; "alt"]); reflexivity.
Qed.

(** X18 (tsv_parser.rs [TsvParser::map_columns]): the header row is
    accepted exactly when one of its columns, trimmed and lower-cased, is a
    chromosome alias and one is a position alias. *)
Theorem map_columns_ok_iff (headers : list string) :
  (exists m, map_columns headers = Ok m) <->
  (existsb (fun h => str_in (to_lowercase (trim h)) ["chromosome"; "chr"; "chrom"]) headers = true
   /\ existsb (fun h => str_in (to_lowercase (trim h)) ["position"; "pos"; "bp"]) headers = true).
Proof.
  pose proof (map_headers_key "chromosome" _ map_header_chromosome headers 0 []) as Ec.
  pose proof (map_headers_key "position" _ map_header_position headers 0 []) as Ep.
  rewrite orb_false_r in Ec, Ep. rewrite <- Ec, <- Ep. unfold map_columns.
  destruct (map_get "chromosome" (map_headers 0 headers [])),
           (map_get "position" (map_headers 0 headers [])); simpl;
    split; intros H; try (destruct H as [? H]; discriminate);
    try (destruct H as [H1 H2]; discriminate); try (split; reflexivity).
  eexists. reflexivity.
Qed.

Lemma map_headers_keys (hs : list string) :
  forall i m, Forall (fun e => In (fst e) mapping_keys) m ->
              Forall (fun e => In (fst e) mapping_keys) (map_headers i hs m).
Proof.
  induction hs as [|h hs IH]; intros i m Hm; [exact Hm|].
  simpl. apply IH. unfold map_header, map_insert.
  repeat match goal with
         | |- context [if ?b then _ else _] => destruct b
         end; try exact Hm; constructor; try exact Hm; simpl; tauto.
Qed.

Lemma map_get_other_key (k : string) (m : column_mapping) :
  ~ In k mapping_keys -> Forall (fun e => In (fst e) mapping_keys) m -> map_get k m = None.
Proof.
  intros Hk Hm. unfold map_get. induction Hm as [|[k' i] m Hk' Hm IH]; [reflexivity|].
  simpl in *. destruct (String.eqb k' k) eqn:E; [|exact IH].
  apply String.eqb_eq in E. subst k'. contradiction.
Qed.

(** X19 (tsv_parser.rs [TsvParser::map_columns] and
    [TsvParser::parse_data_line]): a column mapping never has the keys
    "allele1" and "allele2", so the branch of [parse_data_line] that joins
    two allele columns is never taken. *)
Theorem map_columns_no_allele_keys (headers : list string) (m : column_mapping) :
  map_columns headers = Ok m ->
  map_get "allele1" m = None /\ map_get "allele2" m = None.
Proof.
  unfold map_columns. intros H.
  assert (Hm : m = map_headers 0 headers []).
  { destruct (map_get "chromosome" (map_headers 0 headers [])),
             (map_get "position" (map_headers 0 headers [])); try discriminate.
    injection H as <-. reflexivity. }
  pose proof (map_headers_keys headers 0 [] (Forall_nil _)) as Hk. rewrite <- Hm in Hk.
  split; apply map_get_other_key; try exact Hk; unfold mapping_keys; simpl;
    intuition discriminate.
Qed.

Lemma map_columns_no_allele_keys_witness :
  exists m, map_columns (split_on char_tab allele_header) = Ok m
    /\ map_get "allele1" m = None /\ map_get "allele2" m = None.
Proof.
  eexists. split; [vm_compute; reflexivity|].
  apply (map_columns_no_allele_keys (split_on char_tab allele_header)).
  vm_compute. reflexivity.
Defined.

(** A line's error does not depend on the variants parsed before it. *)
Lemma parse_data_line_error_indep (line : string) (d : ascii) (m : column_mapping)
    (data1 data2 : ParsedGeneticData) (e : string) :
  parse_data_line line d m data1 = Err e -> parse_data_line line d m data2 = Err e.
Proof.
  unfold parse_data_line, bind, ok_or. cbv zeta.
  destruct (String.eqb (trim line) ""); [discriminate|].
  destruct (map_get "chromosome" m) as [ci|]; [|tauto].
  destruct (map_get "position" m) as [pi|]; [|tauto].
  destruct (field_at (split_on d (trim line)) ci); [|tauto].
  destruct (field_at (split_on d (trim line)) pi); [|tauto].
  destruct (parse_u64 _); [discriminate|tauto].
Qed.

Lemma parse_data_lines_bad_line (d : ascii) (m : column_mapping) (l : string)
    (data0 : ParsedGeneticData) (e : string) :
  parse_data_line l d m data0 = Err e ->
  forall ls data, In l ls -> exists e', parse_data_lines ls d m data = Err e'.
Proof.
  intros He. induction ls as [|l' ls IH]; intros data Hin; [destruct Hin|].
  simpl. destruct Hin as [->|Hin].
  - rewrite (parse_data_line_error_indep l d m data0 data e He). eexists. reflexivity.
  - destruct (parse_data_line l' d m data) as [d'|e']; simpl; [|eexists; reflexivity].
    apply IH. exact Hin.
Qed.

(** X20 (tsv_parser.rs [TsvParser::parse] and [TsvParser::parse_data_line]):
    one data line that fails to parse (too few columns, an invalid
    position) fails the whole file, wherever it stands: no partial sample is
    returned. *)
Theorem tsv_bad_line_fails_file (file_stem path : string) (lines : list string)
    (mapping : column_mapping) (l : string) (data : ParsedGeneticData) (e : string) :
  map_columns (split_on (detect_delimiter (hd "" lines)) (trim (hd "" lines))) = Ok mapping ->
  In l (tl lines) ->
  parse_data_line l (detect_delimiter (hd "" lines)) mapping data = Err e ->
  exists e', tsv_parse file_stem path lines = Err e'.
Proof.
  intros Hmap Hin He. destruct lines as [|first rest]; [destruct Hin|].
  simpl in Hmap, Hin, He. unfold tsv_parse. cbv zeta. rewrite Hmap. simpl.
  exact (parse_data_lines_bad_line _ _ _ _ _ He rest _ Hin).
Qed.

Lemma tsv_bad_line_fails_file_witness :
  exists e', tsv_parse "s" "s.tsv"
               [tab_joined ["chromosome"; "position"]; tab_joined ["1"; "100"];
                tab_joined ["1"; "abc"]] = Err e'.
Proof.
  apply (tsv_bad_line_fails_file "s" "s.tsv" _ [("position", 1%nat); ("chromosome", 0%nat)]
           (tab_joined ["1"; "abc"]) (empty_sample "s") "Invalid position: abc");
    vm_compute; [reflexivity|right; left; reflexivity|reflexivity].
Defined.

(** *** main.rs: the analyzers run *)

(** X21 (main.rs [run_analysis], step 4): the analysis type selects the
    result lists filled, each with one result per comparison sample, the
    others staying empty; "relationship" runs the IBD detector. *)
Theorem run_analyzers_selection (fmt_f32 : nat -> f32 -> string) (config : AppConfig)
    (patient_data : ParsedGeneticData) (comparison_data : list ParsedGeneticData) :
  let n := List.length comparison_data in
  exists r, run_analyzers fmt_f32 config patient_data comparison_data = Ok r
    /\ List.length (organ_compatibility r)
       = match analysis config with All | OrganCompatibility => n | _ => 0%nat end
    /\ List.length (disease_risks r)
       = match analysis config with All | Disease => n | _ => 0%nat end
    /\ List.length (ar_hla_matches r)
       = match analysis config with All | HLA => n | _ => 0%nat end
    /\ List.length (ibd_segments r)
       = match analysis config with All | IBD | Relationship => n | _ => 0%nat end
    /\ List.length (pharmacogenomics r)
       = match analysis config with All | Pharmacogenomics => n | _ => 0%nat end.
Proof.
  intros n.
  destruct (par_map_collect_total (check_sample (mkOrganCompatibilityChecker (cfg_organ config)) patient_data)
              ltac:(intros; eexists; reflexivity) comparison_data) as [oc [Hoc Loc]].
  destruct (par_map_collect_total (analyze_disease_sample patient_data)
              ltac:(intros; eexists; reflexivity) comparison_data) as [dr [Hdr Ldr]].
  destruct (par_map_collect_total (analyze_hla_sample patient_data)
              ltac:(intros; eexists; reflexivity) comparison_data) as [hm [Hhm Lhm]].
  destruct (par_map_collect_total
              (detect_sample (mkIBDDetector (cfg_min_cm config) (cfg_min_segment_length config))
                 patient_data)
              ltac:(intros; eexists; reflexivity) comparison_data) as [ib [Hib Lib]].
  destruct (par_map_collect_total (compare_sample fmt_f32 patient_data)
              ltac:(intros; eexists; reflexivity) comparison_data) as [pg [Hpg Lpg]].
  apply map_Ok_length in Loc, Ldr, Lhm, Lib, Lpg.
  unfold run_analyzers, check, analyze_disease, analyze_hla, detect, compare.
  rewrite Hoc, Hdr, Hhm, Hib, Hpg.
  destruct (analysis config); simpl; eexists; (split; [reflexivity|]); simpl;
    repeat split; assumption.
Qed.

(** *** discovery.rs *)

Lemma retain_unseen_nodup (files : list string) :
  forall seen, NoDup (retain_unseen seen files)
               /\ (forall x, In x (retain_unseen seen files) -> ~ In x seen).
Proof.
  induction files as [|f files IH]; intros seen; simpl; [split; [constructor|tauto]|].
  destruct (str_in f seen) eqn:E; [apply IH|].
  destruct (IH (f :: seen)) as [Hnd Hnot]. split.
  - constructor; [|exact Hnd]. intros Hf. apply (Hnot f Hf). left. reflexivity.
  - intros x [<-|Hx].
    + intros Hin. assert (Hs : str_in f seen = true).
      { unfold str_in. apply existsb_exists. exists f. split; [exact Hin|].
        apply String.eqb_refl. }
      congruence.
    + intros Hin. apply (Hnot x Hx). right. exact Hin.
Qed.

Lemma discover_last_step (fs : FileSystem) (r : result (list string)) (files : list string) :
  (fl <- r ;; filter_genetic_files fs (retain_unseen [] fl)) = Ok files ->
  exists fl, r = Ok fl /\ filter_genetic_files fs (retain_unseen [] fl) = Ok files.
Proof. destruct r as [fl|e]; simpl; [eauto|discriminate]. Qed.

(** X22 (discovery.rs [FileDiscovery::discover]): the discovered files are
    pairwise distinct. *)
Theorem discover_no_duplicates (fs : FileSystem) (recursive : bool)
    (patient_path : string) (compare_paths : list string) (files : list string) :
  discover fs recursive patient_path compare_paths = Ok files -> NoDup files.
Proof.
  unfold discover. intros H.
  destruct (collect_compare_paths fs recursive compare_paths) as [c|e]; [|discriminate].
  cbn [bind] in H. apply discover_last_step in H. destruct H as [fl [_ H]].
  unfold filter_genetic_files in H. injection H as <-.
  apply NoDup_filter. exact (proj1 (retain_unseen_nodup fl [])).
Qed.

Lemma discover_no_duplicates_witness :
  let fs := mkFileSystem (fun _ => true) (fun _ => true) (fun _ => false)
              (fun _ => None) (fun _ => None) (fun _ => []) None (fun _ => false) in
  discover fs false "p.vcf" ["p.vcf"; "s.vcf"; "p.vcf"] = Ok ["p.vcf"; "s.vcf"]
  /\ NoDup ["p.vcf"; "s.vcf"].
Proof.
  intros fs. split; [vm_compute; reflexivity|].
  apply (discover_no_duplicates fs false "p.vcf" ["p.vcf"; "s.vcf"; "p.vcf"]).
  vm_compute. reflexivity.
Defined.

(** X23 (discovery.rs [FileDiscovery::discover] and
    [FileDiscovery::filter_genetic_files]): an existing patient file whose
    extension names a known format is the first discovered file, so it is
    also among the files compared with the patient. *)
Theorem discover_patient_first (fs : FileSystem) (recursive : bool)
    (patient_path : string) (compare_paths : list string) (files : list string)
    (ext : string) :
  fs_exists fs patient_path = true ->
  path_extension patient_path = Some ext ->
  FileFormat.is_genetic_format (FileFormat.from_extension ext) = true ->
  discover fs recursive patient_path compare_paths = Ok files ->
  hd_error files = Some patient_path.
Proof.
  intros Hex Hext Hfmt H. unfold discover in H. rewrite Hex in H.
  destruct (collect_compare_paths fs recursive compare_paths) as [c|e]; [|discriminate].
  cbn [bind app] in H. destruct recursive; cbn [bind] in H;
    unfold filter_genetic_files in H; injection H as <-;
    cbn [retain_unseen str_in existsb List.filter]; rewrite Hext, Hfmt; reflexivity.
Qed.

Lemma discover_patient_first_witness :
  let fs := mkFileSystem (fun _ => true) (fun _ => true) (fun _ => false)
              (fun _ => None) (fun _ => None) (fun _ => []) None (fun _ => false) in
  hd_error (match discover fs false "p.vcf" ["s.vcf"; "p.vcf"] with
            | Ok files => files | Err _ => [] end) = Some "p.vcf".
Proof.
  intros fs.
  apply (discover_patient_first fs false "p.vcf" ["s.vcf"; "p.vcf"] _ "vcf");
    vm_compute; reflexivity.
Defined.



Lemma rsplit_dot_app (s t before after : string) :
  rsplit_dot t = Some (before, after) -> rsplit_dot (s ++ t) = Some (s ++ before, after).
Proof.
  intros H. induction s as [|c s IH]; [exact H|]. simpl. rewrite IH. reflexivity.
Qed.

Lemma name_not_dotdot (stem : string) : String.eqb (stem ++ ".vcf.gz") ".." = false.
Proof.
  destruct stem as [|c1 [|c2 r]]; [reflexivity| |].
  - simpl. destruct (Ascii.eqb c1 "."); reflexivity.
  - simpl. destruct (Ascii.eqb c1 "."), (Ascii.eqb c2 "."); try reflexivity.
    destruct r; reflexivity.
Qed.

(** X25 (discovery.rs [FileDiscovery::filter_genetic_files] and types.rs
    [FileFormat::from_extension]): the extension of a compressed "x.vcf.gz"
    file is "gz", so the "vcf.gz" arm of [from_extension] is never reached
    from discovery: such a file is kept only when the parser accepts it. *)
Theorem vcf_gz_kept_only_if_parsed (fs : FileSystem) (p stem : string) :
  file_name p = stem ++ ".vcf.gz" ->
  path_extension p = Some "gz"
  /\ filter_genetic_files fs [p] = Ok (if fs_parses fs p then [p] else []).
Proof.
  intros Hn.
  assert (He : path_extension p = Some "gz").
  { unfold path_extension. rewrite Hn, name_not_dotdot.
    rewrite (rsplit_dot_app stem ".vcf.gz" ".vcf" "gz" eq_refl).
    destruct stem; reflexivity. }
  split; [exact He|]. unfold filter_genetic_files. simpl. rewrite He. simpl.
  destruct (fs_parses fs p); reflexivity.
Qed.

Lemma vcf_gz_kept_only_if_parsed_witness :
  path_extension "data/sample.vcf.gz" = Some "gz"
  /\ filter_genetic_files test_dir_fs ["data/sample.vcf.gz"] = Ok [].
Proof.
  exact (vcf_gz_kept_only_if_parsed test_dir_fs "data/sample.vcf.gz" "sample" eq_refl).
Defined.

Lemma ascii_lower_dot (c : ascii) : Ascii.eqb "."%char (ascii_lower c) = Ascii.eqb "."%char c.
Proof. destruct c as [[] [] [] [] [] [] [] []]; reflexivity. Qed.

Lemma contains_dot_lower (s : string) :
  contains_char "."%char (to_lowercase s) = contains_char "."%char s.
Proof.
  unfold contains_char. induction s as [|c s IH]; [reflexivity|].
  cbn [to_lowercase list_ascii_of_string existsb]. rewrite ascii_lower_dot, IH. reflexivity.
Qed.

(** X26 (types.rs [FileFormat::from_extension] and discovery.rs
    [FileDiscovery::is_potential_genetic_file]): every extension without a
    '.' (as [Path::extension] returns them) that names a known format is
    also one the directory scan accepts without reading the file. *)
Theorem known_format_extension_potential (ext : string) :
  contains_char "."%char ext = false ->
  FileFormat.is_genetic_format (FileFormat.from_extension ext) = true ->
  str_in (to_lowercase ext) potential_extensions = true.
Proof.
  intros Hdot Hg. rewrite <- contains_dot_lower in Hdot.
  unfold FileFormat.from_extension in Hg. revert Hdot Hg.
  generalize (to_lowercase ext) as e. intros e Hdot Hg.
  repeat match type of Hg with
         | context [if str_in e ?l then _ else _] =>
             let E := fresh "E" in
             destruct (str_in e l) eqn:E; [exact_token E; try reflexivity; discriminate|]
         end.
  discriminate Hg.
Qed.

Lemma known_format_extension_potential_witness :
  str_in (to_lowercase "GFF3") potential_extensions = true.
Proof. apply known_format_extension_potential; reflexivity. Defined.



